(** * Transaction middleware of x/auth: a shallow embedding

    The Go package [middleware] wraps a [tx.Handler] in four stages:
    [validateBasicMiddleware], [txTimeoutHeightMiddleware],
    [validateMemoMiddleware] and [consumeTxSizeGasMiddleware].  Each stage
    implements the three methods [CheckTx], [DeliverTx] and [SimulateTx].

    Go values are embedded as follows.
    - [uint64], [int64] and [int] are integers of [Z]; every conversion and
      every [uint64] product is written with its reduction modulo [2^64].
    - a Go [string] and a [[]byte] are sequences of bytes ([string], whose
      characters are the 256 byte values, and [list byte]).
    - an optional interface of a transaction ([tx.(T)]) is an [option].
    - a method returning [(response, error)] that may also panic is a
      function from the mutable part of the request (store and gas meter) to
      an [Outcome] and the new mutable part. *)

From Stdlib Require Import ZArith List String Ascii Bool Lia.
From Stdlib Require Import Init.Byte.
From Stdlib Require Import Permutation.
Import ListNotations.
Local Open Scope string_scope.
Local Open Scope Z_scope.
Set Warnings "-register-all".

(** ** Go integers *)

Module Go.

(** [uint64(x)]: conversion of an integer to [uint64]. *)
Definition uint64 (x : Z) : Z := x mod 2 ^ 64.

(** [a * b] on two [uint64] operands. *)
Definition mul64 (a b : Z) : Z := (a * b) mod 2 ^ 64.

(** [len(s)] of a slice; the value has Go type [int]. *)
Definition len {A : Type} (s : list A) : Z := Z.of_nat (List.length s).

(** [len(s)] of a string: its number of bytes. *)
Definition strlen (s : string) : Z := Z.of_nat (String.length s).

Definition is_uint64 (x : Z) : Prop := 0 <= x < 2 ^ 64.
Definition is_int64 (x : Z) : Prop := - 2 ^ 63 <= x < 2 ^ 63.

(** The values of type [int] that a length can take. *)
Definition is_len (x : Z) : Prop := 0 <= x < 2 ^ 63.

End Go.

(** ** Errors and outcomes *)

(** The registered errors the stages wrap, with the values formatted into
    their messages, and the errors a transaction returns itself. *)
Inductive Error : Type :=
| ErrTxDecode (msg : string)
| ErrTxTimeoutHeight (blockHeight timeoutHeight : Z)
| ErrMemoTooLarge (maxCharacters received : Z)
| ErrTx (reason : string).

(** The value a gas meter panics with. *)
Inductive PanicValue : Type :=
| ErrorOutOfGas (descriptor : string).

Inductive Outcome (A : Type) : Type :=
| Ok (a : A)
| Err (e : Error)
| Panic (p : PanicValue).

Arguments Ok {A} a.
Arguments Err {A} e.
Arguments Panic {A} p.

(** ** Signature data *)

(** [signing.SignatureData]: the nil interface, a [*SingleSignatureData]
    with its [Signature] bytes, or a [*MultiSignatureData] with its
    [Signatures]. *)
Inductive SignatureData : Type :=
| NilSignatureData
| SingleSignatureData (Signature : list byte)
| MultiSignatureData (Signatures : list SignatureData).

(** [isIncompleteSignature]; the inner [fix] is the [for ... range] loop
    over [data.Signatures], which returns at the first incomplete member
    and otherwise falls through to the final [return false]. *)
Fixpoint isIncompleteSignature (data : SignatureData) : bool :=
  match data with
  | NilSignatureData => true
  | SingleSignatureData Signature => Go.len Signature =? 0
  | MultiSignatureData Signatures =>
      if Go.len Signatures =? 0 then true
      else
        (fix range (l : list SignatureData) : bool :=
           match l with
           | [] => false
           | s :: l' => if isIncompleteSignature s then true else range l'
           end) Signatures
  end.

(** The definition of incompleteness in the words of the specification:
    absent, an empty single signature, a multi-signature without members,
    or a multi-signature with an incomplete member. *)
Inductive Incomplete : SignatureData -> Prop :=
| Incomplete_absent : Incomplete NilSignatureData
| Incomplete_single : Incomplete (SingleSignatureData [])
| Incomplete_empty_multi : Incomplete (MultiSignatureData [])
| Incomplete_member : forall sigs s,
    In s sigs -> Incomplete s -> Incomplete (MultiSignatureData sigs).

(** ** Parameters, gas meter and request context *)

(** The fields of [types.Params] the stages read; all are [uint64]. *)
Record Params : Type := {
  MaxMemoCharacters : Z;
  TxSigLimit : Z;
  TxSizeCostPerByte : Z
}.

(** Modelled from the spec: the gas meter is an external collaborator;
    [consume(amount, label)] adds to the cumulative consumption and fails
    fatally when that would exceed the configured limit.  [charges] records
    the calls in order, so that what a stage charges can be observed. *)
Record GasMeter : Type := {
  consumed : Z;
  limit : Z;
  charges : list (Z * string)
}.

Definition charge (amount : Z) (descriptor : string) (g : GasMeter) : GasMeter :=
  {| consumed := consumed g + amount;
     limit := limit g;
     charges := charges g ++ [(amount, descriptor)] |}.

(** The immutable part of [sdk.Context]. *)
Record Context : Type := {
  BlockHeight : Z;
  IsReCheckTx : bool;
  TxBytes : list byte
}.

Inductive Mode : Type := ModeCheck | ModeDeliver | ModeSimulate.

(** ** The collaborators outside this package *)

(** Types and constants this package takes from elsewhere: the state store,
    public keys with the test that a key is a [multisig.LegacyAminoPubKey],
    the placeholders [simSecp256k1Pubkey] and [simSecp256k1Sig], the amino
    codec applied to a [legacytx.StdSignature] (as [legacy.Cdc.MustMarshal]),
    and the ABCI requests and responses of each mode. *)
Class External : Type := {
  Store : Type;
  PubKey : Type;
  isLegacyAminoPubKey : PubKey -> bool;
  simSecp256k1Pubkey : PubKey;
  simSecp256k1Sig : list byte;
  MustMarshalStdSignature : list byte -> PubKey -> list byte;
  Request : Mode -> Type;
  Response : Mode -> Type
}.

Section Middleware.

Context {E : External}.

(** The mutable part of a request: the state store and the gas meter that
    [sdk.Context] points to. *)
Record World : Type := {
  store : Store;
  gasMeter : GasMeter
}.

(** A computation that reads and updates the [World] and ends with a value,
    an [error] or a panic. *)
Definition M (A : Type) : Type := World -> Outcome A * World.

Definition ret {A : Type} (a : A) : M A := fun w => (Ok a, w).

Definition fail {A : Type} (e : Error) : M A := fun w => (Err e, w).

Definition bind {A B : Type} (m : M A) (k : A -> M B) : M B :=
  fun w =>
    match m w with
    | (Ok a, w') => k a w'
    | (Err e, w') => (Err e, w')
    | (Panic p, w') => (Panic p, w')
    end.

(** Modelled from the spec: [GasMeter().ConsumeGas(amount, descriptor)].
    The call is recorded and the consumption added; the call panics when the
    cumulative consumption exceeds the limit. *)
Definition ConsumeGas (amount : Z) (descriptor : string) : M unit :=
  fun w =>
    let w' := {| store := store w; gasMeter := charge amount descriptor (gasMeter w) |} in
    if limit (gasMeter w) <? consumed (gasMeter w) + amount
    then (Panic (ErrorOutOfGas descriptor), w')
    else (Ok tt, w').

(** [signing.SignatureV2]. *)
Record SignatureV2 : Type := {
  SigPubKey : option PubKey;
  Data : SignatureData;
  Sequence : Z
}.

(** [authsigning.SigVerifiableTx]: the signers and the result of
    [GetSignaturesV2()], a slice or an error. *)
Record SigVerifiableTx : Type := {
  GetSigners : list (list byte);
  GetSignaturesV2 : list SignatureV2 + Error
}.

(** [sdk.Tx] with the result of [ValidateBasic()] ([None] is the nil
    error) and the outcome of each type assertion the stages make:
    [TxWithTimeoutHeight] gives [GetTimeoutHeight()], [sdk.TxWithMemo]
    gives [GetMemo()]. *)
Record Tx : Type := {
  ValidateBasic : option Error;
  asTxWithTimeoutHeight : option Z;
  asTxWithMemo : option string;
  asSigVerifiableTx : option SigVerifiableTx
}.

(** [types.AccountI], nil when [None]; [GetPubKey()] may be nil. *)
Record Account : Type := {
  GetPubKey : option PubKey
}.

(** Modelled from the spec: [AccountKeeper], the parameter and account
    store, read at the state of the current call. *)
Record AccountKeeper : Type := {
  GetParams : Store -> Params;
  GetAccount : Store -> list byte -> option Account
}.

(** [tx.Handler]. *)
Record Handler : Type := {
  CheckTx : Context -> Tx -> Request ModeCheck -> M (Response ModeCheck);
  DeliverTx : Context -> Tx -> Request ModeDeliver -> M (Response ModeDeliver);
  SimulateTx : Context -> Tx -> Request ModeSimulate -> M (Response ModeSimulate)
}.

(** [tx.Middleware]. *)
Definition Middleware : Type := Handler -> Handler.

(** The method of a handler that serves a mode. *)
Definition run (h : Handler) (m : Mode) : Context -> Tx -> Request m -> M (Response m) :=
  match m with
  | ModeCheck => CheckTx h
  | ModeDeliver => DeliverTx h
  | ModeSimulate => SimulateTx h
  end.

End Middleware.

Notation "x <- c1 ;; c2" := (bind c1 (fun x => c2))
  (at level 61, c1 at next level, right associativity).
Notation "c1 ;;; c2" := (bind c1 (fun _ => c2))
  (at level 61, right associativity).

(** ** The four stages *)

Section Stages.

Context {E : External}.

(** [if err := f(); err != nil { return Response{}, err }]. *)
Definition check (err : option Error) : M unit :=
  match err with
  | Some e => fail e
  | None => ret tt
  end.

(** [ak.GetParams(sdkCtx)] and [ak.GetAccount(sdkCtx, addr)]. *)
Definition getParams (ak : AccountKeeper) : M Params :=
  fun w => (Ok (GetParams ak (store w)), w).

Definition getAccount (ak : AccountKeeper) (addr : list byte) : M (option Account) :=
  fun w => (Ok (GetAccount ak (store w) addr), w).

(** *** validateBasicMiddleware *)

Definition validateBasicMiddleware_CheckTx (next : Handler)
    (ctx : Context) (tx : Tx) (req : Request ModeCheck) : M (Response ModeCheck) :=
  if IsReCheckTx ctx then CheckTx next ctx tx req
  else
    check (ValidateBasic tx) ;;;
    CheckTx next ctx tx req.

Definition validateBasicMiddleware_DeliverTx (next : Handler)
    (ctx : Context) (tx : Tx) (req : Request ModeDeliver) : M (Response ModeDeliver) :=
  check (ValidateBasic tx) ;;;
  DeliverTx next ctx tx req.

Definition validateBasicMiddleware_SimulateTx (next : Handler)
    (ctx : Context) (sdkTx : Tx) (req : Request ModeSimulate) : M (Response ModeSimulate) :=
  check (ValidateBasic sdkTx) ;;;
  SimulateTx next ctx sdkTx req.

Definition ValidateBasicMiddleware (txh : Handler) : Handler :=
  {| CheckTx := validateBasicMiddleware_CheckTx txh;
     DeliverTx := validateBasicMiddleware_DeliverTx txh;
     SimulateTx := validateBasicMiddleware_SimulateTx txh |}.

(** *** txTimeoutHeightMiddleware *)

Definition checkTimeout (ctx : Context) (tx : Tx) : option Error :=
  match asTxWithTimeoutHeight tx with
  | None => Some (ErrTxDecode "expected tx to implement TxWithTimeoutHeight")
  | Some timeoutHeight =>
      if (timeoutHeight >? 0) && (Go.uint64 (BlockHeight ctx) >? timeoutHeight)
      then Some (ErrTxTimeoutHeight (BlockHeight ctx) timeoutHeight)
      else None
  end.

Definition txTimeoutHeightMiddleware_CheckTx (next : Handler)
    (ctx : Context) (tx : Tx) (req : Request ModeCheck) : M (Response ModeCheck) :=
  check (checkTimeout ctx tx) ;;;
  CheckTx next ctx tx req.

Definition txTimeoutHeightMiddleware_DeliverTx (next : Handler)
    (ctx : Context) (tx : Tx) (req : Request ModeDeliver) : M (Response ModeDeliver) :=
  check (checkTimeout ctx tx) ;;;
  DeliverTx next ctx tx req.

Definition txTimeoutHeightMiddleware_SimulateTx (next : Handler)
    (ctx : Context) (sdkTx : Tx) (req : Request ModeSimulate) : M (Response ModeSimulate) :=
  check (checkTimeout ctx sdkTx) ;;;
  SimulateTx next ctx sdkTx req.

Definition TxTimeoutHeightMiddleware (txh : Handler) : Handler :=
  {| CheckTx := txTimeoutHeightMiddleware_CheckTx txh;
     DeliverTx := txTimeoutHeightMiddleware_DeliverTx txh;
     SimulateTx := txTimeoutHeightMiddleware_SimulateTx txh |}.

(** *** validateMemoMiddleware *)

Definition checkForValidMemo (ak : AccountKeeper) (ctx : Context) (tx : Tx) : M unit :=
  match asTxWithMemo tx with
  | None => fail (ErrTxDecode "invalid transaction type")
  | Some memo =>
      params <- getParams ak ;;
      let memoLength := Go.strlen memo in
      if Go.uint64 memoLength >? MaxMemoCharacters params
      then fail (ErrMemoTooLarge (MaxMemoCharacters params) memoLength)
      else ret tt
  end.

Definition validateMemoMiddleware_CheckTx (ak : AccountKeeper) (next : Handler)
    (ctx : Context) (tx : Tx) (req : Request ModeCheck) : M (Response ModeCheck) :=
  checkForValidMemo ak ctx tx ;;;
  CheckTx next ctx tx req.

Definition validateMemoMiddleware_DeliverTx (ak : AccountKeeper) (next : Handler)
    (ctx : Context) (tx : Tx) (req : Request ModeDeliver) : M (Response ModeDeliver) :=
  checkForValidMemo ak ctx tx ;;;
  DeliverTx next ctx tx req.

Definition validateMemoMiddleware_SimulateTx (ak : AccountKeeper) (next : Handler)
    (ctx : Context) (sdkTx : Tx) (req : Request ModeSimulate) : M (Response ModeSimulate) :=
  checkForValidMemo ak ctx sdkTx ;;;
  SimulateTx next ctx sdkTx req.

Definition ValidateMemoMiddleware (ak : AccountKeeper) : Middleware :=
  fun txHandler =>
    {| CheckTx := validateMemoMiddleware_CheckTx ak txHandler;
       DeliverTx := validateMemoMiddleware_DeliverTx ak txHandler;
       SimulateTx := validateMemoMiddleware_SimulateTx ak txHandler |}.

(** *** consumeTxSizeGasMiddleware *)

(** [params.TxSizeCostPerByte*sdk.Gas(len(sdkCtx.TxBytes()))]. *)
Definition txSizeGas (params : Params) (ctx : Context) : Z :=
  Go.mul64 (TxSizeCostPerByte params) (Go.uint64 (Go.len (TxBytes ctx))).

Definition consumeTxSizeGasMiddleware_CheckTx (ak : AccountKeeper) (next : Handler)
    (ctx : Context) (tx : Tx) (req : Request ModeCheck) : M (Response ModeCheck) :=
  match asSigVerifiableTx tx with
  | None => fail (ErrTxDecode "invalid tx type")
  | Some _ =>
      params <- getParams ak ;;
      ConsumeGas (txSizeGas params ctx) "txSize" ;;;
      CheckTx next ctx tx req
  end.

Definition consumeTxSizeGasMiddleware_DeliverTx (ak : AccountKeeper) (next : Handler)
    (ctx : Context) (tx : Tx) (req : Request ModeDeliver) : M (Response ModeDeliver) :=
  match asSigVerifiableTx tx with
  | None => fail (ErrTxDecode "invalid tx type")
  | Some _ =>
      params <- getParams ak ;;
      ConsumeGas (txSizeGas params ctx) "txSize" ;;;
      DeliverTx next ctx tx req
  end.

(** The test [i < n && !isIncompleteSignature(sigs[i].Data)]. *)
Definition sigFilledAt (sigs : list SignatureV2) (i : nat) : bool :=
  match nth_error sigs i with
  | Some sig => negb (isIncompleteSignature (Data sig))
  | None => false
  end.

(** The public key the loop settles on for an account. *)
Definition resolvePubKey (acc : option Account) : PubKey :=
  match acc with
  | None => simSecp256k1Pubkey
  | Some a =>
      match GetPubKey a with
      | None => simSecp256k1Pubkey
      | Some pk => pk
      end
  end.

(** [cost], from the marshalled placeholder [StdSignature] to the
    multiplication by [params.TxSigLimit]. *)
Definition simSigCost (params : Params) (pubkey : PubKey) : Z :=
  let sigBz := MustMarshalStdSignature simSecp256k1Sig pubkey in
  let cost := Go.uint64 (Go.len sigBz + 6) in
  if isLegacyAminoPubKey pubkey then Go.mul64 cost (TxSigLimit params) else cost.

(** The loop body below the [continue]. *)
Definition simulateSignerGas (ak : AccountKeeper) (params : Params) (signer : list byte) : M unit :=
  acc <- getAccount ak signer ;;
  let pubkey := resolvePubKey acc in
  let cost := simSigCost params pubkey in
  ConsumeGas (Go.mul64 (TxSizeCostPerByte params) cost) "txSize".

(** [for i, signer := range sigTx.GetSigners()], from index [i] on. *)
Fixpoint simulateSigGas (ak : AccountKeeper) (params : Params) (sigs : list SignatureV2)
    (i : nat) (signers : list (list byte)) : M unit :=
  match signers with
  | [] => ret tt
  | signer :: rest =>
      if sigFilledAt sigs i then simulateSigGas ak params sigs (S i) rest
      else
        simulateSignerGas ak params signer ;;;
        simulateSigGas ak params sigs (S i) rest
  end.

Definition consumeTxSizeGasMiddleware_SimulateTx (ak : AccountKeeper) (next : Handler)
    (ctx : Context) (sdkTx : Tx) (req : Request ModeSimulate) : M (Response ModeSimulate) :=
  match asSigVerifiableTx sdkTx with
  | None => fail (ErrTxDecode "invalid tx type")
  | Some sigTx =>
      params <- getParams ak ;;
      ConsumeGas (txSizeGas params ctx) "txSize" ;;;
      match GetSignaturesV2 sigTx with
      | inr err => fail err
      | inl sigs =>
          simulateSigGas ak params sigs 0 (GetSigners sigTx) ;;;
          SimulateTx next ctx sdkTx req
      end
  end.

Definition ConsumeTxSizeGasMiddleware (ak : AccountKeeper) : Middleware :=
  fun txHandler =>
    {| CheckTx := consumeTxSizeGasMiddleware_CheckTx ak txHandler;
       DeliverTx := consumeTxSizeGasMiddleware_DeliverTx ak txHandler;
       SimulateTx := consumeTxSizeGasMiddleware_SimulateTx ak txHandler |}.

(** *** Chains *)

(** Modelled from the spec: [tx.ComposeMiddlewares] is not part of this
    package.  A chain applies an ordered list of middleware constructors to a
    terminal handler; the first of the list becomes the outermost wrapper. *)
Definition ComposeMiddlewares (txHandler : Handler) (middlewares : list Middleware) : Handler :=
  fold_right (fun (mw : Middleware) (h : Handler) => mw h) txHandler middlewares.

(** The middleware constructors of this package. *)
Inductive Stage : Type :=
| StageValidateBasic
| StageTxTimeoutHeight
| StageValidateMemo (ak : AccountKeeper)
| StageConsumeTxSizeGas (ak : AccountKeeper).

Definition middlewareOf (s : Stage) : Middleware :=
  match s with
  | StageValidateBasic => ValidateBasicMiddleware
  | StageTxTimeoutHeight => TxTimeoutHeightMiddleware
  | StageValidateMemo ak => ValidateMemoMiddleware ak
  | StageConsumeTxSizeGas ak => ConsumeTxSizeGasMiddleware ak
  end.

(** Two handlers that cannot be told apart: on every input, in every mode,
    they end with the same outcome and leave the same store and gas meter. *)
Definition handler_equiv (h1 h2 : Handler) : Prop :=
  forall (m : Mode) (ctx : Context) (tx : Tx) (req : Request m) (w : World),
    run h1 m ctx tx req w = run h2 m ctx tx req w.

End Stages.

(** ** Notions used to state what the stages do *)

(** The signature bytes at the leaves of signature data, left to right. *)
Fixpoint leafSignatures (data : SignatureData) : list (list byte) :=
  match data with
  | NilSignatureData => []
  | SingleSignatureData Signature => [Signature]
  | MultiSignatureData Signatures => flat_map leafSignatures Signatures
  end.

(** [Within inner outer]: the value [inner] occurs in [outer], as [outer]
    itself or as a member, at any depth, of a multi-signature. *)
Inductive Within (inner : SignatureData) : SignatureData -> Prop :=
| Within_here : Within inner inner
| Within_member : forall sigs s,
    In s sigs -> Within inner s -> Within inner (MultiSignatureData sigs).

(** The sum of the amounts of a record of charges. *)
Definition totalGas (cs : list (Z * string)) : Z :=
  fold_right (fun c acc => fst c + acc) 0 cs.

Section Expected.

Context {E : External}.

(** The charges the loop of SimulateTx has to make for the signers from
    index [i] on, with the accounts of the store [st]: one for every
    position whose test [sigFilledAt] fails. *)
Fixpoint sigCharges (ak : AccountKeeper) (st : Store) (params : Params)
    (sigs : list SignatureV2) (i : nat) (signers : list (list byte)) : list (Z * string) :=
  match signers with
  | [] => []
  | signer :: rest =>
      (if sigFilledAt sigs i then []
       else [(Go.mul64 (TxSizeCostPerByte params)
                (simSigCost params (resolvePubKey (GetAccount ak st signer))),
              "txSize")])
      ++ sigCharges ak st params sigs (S i) rest
  end%list.

(** The first error among the checks of the first three stages, in the
    order ValidateBasic, timeout height, memo. *)
Definition firstCheckError (ak : AccountKeeper) (m : Mode) (ctx : Context) (tx : Tx)
    (w : World) : option Error :=
  let skipped := match m with ModeCheck => IsReCheckTx ctx | _ => false end in
  match (if skipped then None else ValidateBasic tx) with
  | Some e => Some e
  | None =>
      match checkTimeout ctx tx with
      | Some e => Some e
      | None =>
          match fst (checkForValidMemo ak ctx tx w) with
          | Err e => Some e
          | _ => None
          end
      end
  end.

End Expected.

(** ** Strings as UTF-8 *)

(** A memo is a Go string, that is the UTF-8 encoding of its characters.
    [utf8_rune] is the encoding of one code point in 1 to 4 bytes; a
    surrogate or a value above U+10FFFF is encoded as U+FFFD. *)
Module UTF8.

Definition byte_char (b : Z) : ascii := ascii_of_N (Z.to_N b).

Definition cont (r : Z) (shift : Z) : ascii :=
  byte_char (Z.lor 128 (Z.land (Z.shiftr r shift) 63)).

Definition rune_error : list ascii := [byte_char 239; byte_char 191; byte_char 189].

Definition utf8_rune (r : Z) : list ascii :=
  if r <? 0 then rune_error
  else if r <? 128 then [byte_char r]
  else if r <? 2048 then [byte_char (Z.lor 192 (Z.shiftr r 6)); cont r 0]
  else if (55296 <=? r) && (r <=? 57343) then rune_error
  else if r <? 65536 then [byte_char (Z.lor 224 (Z.shiftr r 12)); cont r 6; cont r 0]
  else if r <=? 1114111
       then [byte_char (Z.lor 240 (Z.shiftr r 18)); cont r 12; cont r 6; cont r 0]
  else rune_error.

(** [string(runes)]: the string holding the given characters. *)
Definition encode (runes : list Z) : string :=
  string_of_list_ascii (flat_map utf8_rune runes).

(** The number of characters of the string [encode runes]. *)
Definition characters (runes : list Z) : Z := Go.len runes.

End UTF8.

(** ** A small instance to run the stages on *)

Module Example.

(** Public keys: a single key or a legacy amino multi-signature key. *)
Inductive pubKey : Type :=
| Secp256k1 (key : list byte)
| LegacyAmino (threshold : Z) (keys : list (list byte)).

Definition keyBytes (pk : pubKey) : list byte :=
  match pk with
  | Secp256k1 key => key
  | LegacyAmino _ keys => List.concat keys
  end.

(** The store holds the parameters; the codec is a stand-in of which only
    the length of the output matters: the signature followed by the key. *)
Definition external : External :=
  {| Store := Params;
     PubKey := pubKey;
     isLegacyAminoPubKey := fun pk => match pk with LegacyAmino _ _ => true | _ => false end;
     simSecp256k1Pubkey := Secp256k1 (repeat x02 33);
     simSecp256k1Sig := repeat x00 64;
     MustMarshalStdSignature := fun sig pk => (sig ++ keyBytes pk)%list;
     Request := fun _ => unit;
     Response := fun _ => Z |}.

#[local] Existing Instance external.

Definition alice : list byte := [x01].
Definition bob : list byte := [x02].
Definition carol : list byte := [x03].

(** [alice] has an account without a public key, [bob] one with a
    multi-signature key, [carol] one with a single key of 6 bytes, so that
    her placeholder signature takes 70 bytes; no other address has an
    account. *)
Definition keeper : AccountKeeper :=
  {| GetParams := fun st => st;
     GetAccount := fun _ addr =>
       match addr with
       | [x01] => Some {| GetPubKey := None |}
       | [x02] => Some {| GetPubKey := Some (LegacyAmino 2 [repeat x02 33; repeat x03 33]) |}
       | [x03] => Some {| GetPubKey := Some (Secp256k1 (repeat x04 6)) |}
       | _ => None
       end |}.

Definition defaultParams : Params :=
  {| MaxMemoCharacters := 256; TxSigLimit := 7; TxSizeCostPerByte := 10 |}.

(** Parameters whose rate is [2^63]. *)
Definition steepParams : Params :=
  {| MaxMemoCharacters := 256; TxSigLimit := 7; TxSizeCostPerByte := 2 ^ 63 |}.

Definition worldWith (p : Params) (g : GasMeter) : World :=
  {| store := p; gasMeter := g |}.

(** A world whose gas meter is fresh. *)
Definition world (p : Params) (gasLimit : Z) : World :=
  worldWith p {| consumed := 0; limit := gasLimit; charges := [] |}.

(** The terminal handler: answers 0 and touches nothing. *)
Definition terminal : Handler :=
  {| CheckTx := fun _ _ _ => ret 0;
     DeliverTx := fun _ _ _ => ret 0;
     SimulateTx := fun _ _ _ => ret 0 |}.

(** A terminal handler that panics, to see whether a stage reaches it. *)
Definition unreachable : Handler :=
  {| CheckTx := fun _ _ _ w => (Panic (ErrorOutOfGas "next"), w);
     DeliverTx := fun _ _ _ w => (Panic (ErrorOutOfGas "next"), w);
     SimulateTx := fun _ _ _ w => (Panic (ErrorOutOfGas "next"), w) |}.

Definition context (height : Z) (recheck : bool) (size : nat) : Context :=
  {| BlockHeight := height; IsReCheckTx := recheck; TxBytes := repeat x00 size |}.

Definition single : SignatureV2 :=
  {| SigPubKey := None; Data := SingleSignatureData [x01; x02]; Sequence := 0 |}.

(** A complete nested signature with a key and a sequence, and an entry
    without signature data. *)
Definition nested : SignatureV2 :=
  {| SigPubKey := Some (Secp256k1 [x07]);
     Data := MultiSignatureData [SingleSignatureData [x09]];
     Sequence := 42 |}.

Definition unsigned : SignatureV2 :=
  {| SigPubKey := None; Data := NilSignatureData; Sequence := 0 |}.

(** A transaction with every capability: timeout height [h], memo [memo],
    signers [signers] and signatures [sigs]. *)
Definition fullTx (h : Z) (memo : string) (signers : list (list byte))
    (sigs : list SignatureV2) : Tx :=
  {| ValidateBasic := None;
     asTxWithTimeoutHeight := Some h;
     asTxWithMemo := Some memo;
     asSigVerifiableTx := Some {| GetSigners := signers; GetSignaturesV2 := inl sigs |} |}.

(** A transaction with no optional capability, failing its own validation
    with [e] when given. *)
Definition bareTx (e : option Error) : Tx :=
  {| ValidateBasic := e;
     asTxWithTimeoutHeight := None;
     asTxWithMemo := None;
     asSigVerifiableTx := None |}.

End Example.

(** * Properties *)

(** ** Signature completeness *)

(** Induction over signature data with the hypothesis for every member of a
    multi-signature. *)
Lemma SignatureData_members_ind (P : SignatureData -> Prop) :
  P NilSignatureData ->
  (forall sig, P (SingleSignatureData sig)) ->
  (forall sigs, Forall P sigs -> P (MultiSignatureData sigs)) ->
  forall data, P data.
Proof.
  intros Hnil Hsingle Hmulti.
  fix IH 1.
  intros [ | sig | sigs].
  - exact Hnil.
  - apply Hsingle.
  - apply Hmulti.
    induction sigs as [ | s sigs IHsigs].
    + constructor.
    + constructor; [apply IH | exact IHsigs].
Qed.

(** The loop over the members is a search for an incomplete one. *)
Lemma isIncompleteSignature_multi (sigs : list SignatureData) :
  isIncompleteSignature (MultiSignatureData sigs) =
  if Go.len sigs =? 0 then true else existsb isIncompleteSignature sigs.
Proof.
  simpl.
  destruct (Go.len sigs =? 0); [reflexivity | ].
  induction sigs as [ | s sigs IHsigs]; simpl; [reflexivity | ].
  destruct (isIncompleteSignature s); [reflexivity | exact IHsigs].
Qed.

Lemma len_zero_nil {A : Type} (l : list A) : (Go.len l =? 0) = true <-> l = [].
Proof.
  unfold Go.len.
  destruct l as [ | a l]; simpl; split; intro H;
    try reflexivity; try discriminate.
Qed.

(** [isIncompleteSignature] answers [true] exactly on the incomplete
    values of the recursive definition. *)
Lemma isIncompleteSignature_true_iff (data : SignatureData) :
  isIncompleteSignature data = true <-> Incomplete data.
Proof.
  induction data as [ | sig | sigs IHsigs] using SignatureData_members_ind.
  - split; [constructor | reflexivity].
  - change (isIncompleteSignature (SingleSignatureData sig))
      with (Go.len sig =? 0).
    rewrite len_zero_nil.
    split.
    + intros ->. constructor.
    + intros H. inversion H. reflexivity.
  - rewrite isIncompleteSignature_multi.
    destruct (Go.len sigs =? 0) eqn:Hlen.
    + apply len_zero_nil in Hlen. subst sigs.
      split; [constructor | reflexivity].
    + rewrite existsb_exists.
      rewrite Forall_forall in IHsigs.
      split.
      * intros [s [Hin Hs]].
        apply Incomplete_member with s; [exact Hin | ].
        apply IHsigs; assumption.
      * intros H. inversion H as [ | | Hnil | sigs' s Hin Hs Heq].
        -- subst sigs. discriminate Hlen.
        -- exists s. split; [exact Hin | ].
           apply IHsigs; assumption.
Qed.

Lemma isIncompleteSignature_false_iff (data : SignatureData) :
  isIncompleteSignature data = false <-> ~ Incomplete data.
Proof.
  rewrite <- isIncompleteSignature_true_iff.
  destruct (isIncompleteSignature data); split; intro H;
    try reflexivity; try discriminate; try (exfalso; apply H; reflexivity).
Qed.

(** C6. [isIncompleteSignature] decides the recursive definition: it
    answers [true] exactly on the absent value, the single signature
    without bytes, the multi-signature without members and the
    multi-signature with an incomplete member, and [false] on every other
    single or multi-signature. *)
Theorem isIncompleteSignature_spec (data : SignatureData) :
  (isIncompleteSignature data = true <-> Incomplete data) /\
  (isIncompleteSignature data = false <-> ~ Incomplete data) /\
  (Incomplete data <->
     data = NilSignatureData \/
     data = SingleSignatureData [] \/
     data = MultiSignatureData [] \/
     exists sigs s, data = MultiSignatureData sigs /\ In s sigs /\ Incomplete s).
Proof.
  split; [apply isIncompleteSignature_true_iff | ].
  split; [apply isIncompleteSignature_false_iff | ].
  split.
  - intros H. destruct H as [ | | | sigs s Hin Hs].
    + left. reflexivity.
    + right. left. reflexivity.
    + right. right. left. reflexivity.
    + right. right. right. exists sigs, s. repeat split; assumption.
  - intros [-> | [-> | [-> | [sigs [s [-> [Hin Hs]]]]]]].
    + constructor.
    + constructor.
    + constructor.
    + apply Incomplete_member with s; assumption.
Qed.

(** ** Sequencing *)

Section Sequencing.

Context {E : External}.

Lemma bind_ret {A B : Type} (a : A) (k : A -> M B) (w : World) :
  bind (ret a) k w = k a w.
Proof. reflexivity. Qed.

Lemma bind_fail {A B : Type} (e : Error) (k : A -> M B) (w : World) :
  bind (fail e) k w = (Err e, w).
Proof. reflexivity. Qed.

Lemma bind_check {B : Type} (err : option Error) (k : M B) (w : World) :
  (check err ;;; k) w =
  match err with
  | Some e => (Err e, w)
  | None => k w
  end.
Proof. destruct err; reflexivity. Qed.

Lemma bind_getParams {B : Type} (ak : AccountKeeper) (k : Params -> M B) (w : World) :
  bind (getParams ak) k w = k (GetParams ak (store w)) w.
Proof. reflexivity. Qed.

Lemma bind_assoc {A B C : Type} (m : M A) (k : A -> M B) (k' : B -> M C) (w : World) :
  bind (bind m k) k' w = bind m (fun a => bind (k a) k') w.
Proof.
  unfold bind.
  destruct (m w) as [[a | e | p] w']; reflexivity.
Qed.

(** Two continuations that agree everywhere give the same computation. *)
Lemma bind_ext {A B : Type} (m : M A) (k k' : A -> M B) (w : World) :
  (forall a w', k a w' = k' a w') -> bind m k w = bind m k' w.
Proof.
  intros H. unfold bind.
  destruct (m w) as [[a | e | p] w']; [apply H | reflexivity | reflexivity].
Qed.

(** What [ConsumeGas] leaves behind and when it panics. *)
Lemma ConsumeGas_eq (amount : Z) (descriptor : string) (w : World) :
  ConsumeGas amount descriptor w =
  (if limit (gasMeter w) <? consumed (gasMeter w) + amount
   then Panic (ErrorOutOfGas descriptor) else Ok tt,
   {| store := store w; gasMeter := charge amount descriptor (gasMeter w) |}).
Proof.
  unfold ConsumeGas.
  destruct (limit (gasMeter w) <? consumed (gasMeter w) + amount); reflexivity.
Qed.

End Sequencing.

(** ** The ValidateBasic stage *)

Section ValidateBasicStage.

Context {E : External}.

(** A handler that panics wherever it is called. *)
Let stop : Handler :=
  {| CheckTx := fun _ _ _ w => (Panic (ErrorOutOfGas "next"), w);
     DeliverTx := fun _ _ _ w => (Panic (ErrorOutOfGas "next"), w);
     SimulateTx := fun _ _ _ w => (Panic (ErrorOutOfGas "next"), w) |}.

(** What the stage does in every mode. *)
Lemma validateBasic_run (next : Handler) (m : Mode) (ctx : Context) (tx : Tx)
    (req : Request m) (w : World) :
  run (ValidateBasicMiddleware next) m ctx tx req w =
  match m, IsReCheckTx ctx, ValidateBasic tx with
  | ModeCheck, true, _ => run next m ctx tx req w
  | _, _, Some err => (Err err, w)
  | _, _, None => run next m ctx tx req w
  end.
Proof.
  destruct m; simpl;
    unfold validateBasicMiddleware_CheckTx, validateBasicMiddleware_DeliverTx,
      validateBasicMiddleware_SimulateTx;
    destruct (IsReCheckTx ctx); try reflexivity;
    rewrite bind_check; destruct (ValidateBasic tx); reflexivity.
Qed.

(** C3. The stage skips the validation, that is it hands every transaction
    to the next handler whatever [ValidateBasic] would answer, if and only
    if the mode is CheckTx and the recheck flag is set.  In every other
    case, in particular in DeliverTx and SimulateTx whatever the flag, the
    validation decides: its error is returned as it is, with store and gas
    meter untouched and whatever the next handler is, and without an error
    the call goes on to the next handler. *)
Theorem validateBasic_skipped_iff_recheck (m : Mode) (ctx : Context)
    (req : Request m) (w : World) :
  ((forall next tx,
      run (ValidateBasicMiddleware next) m ctx tx req w = run next m ctx tx req w)
   <-> (m = ModeCheck /\ IsReCheckTx ctx = true))
  /\
  (forall next tx,
     (m = ModeCheck /\ IsReCheckTx ctx = true) \/
     match ValidateBasic tx with
     | Some err => run (ValidateBasicMiddleware next) m ctx tx req w = (Err err, w)
     | None => run (ValidateBasicMiddleware next) m ctx tx req w = run next m ctx tx req w
     end).
Proof.
  split.
  - split.
    + intros Hskip.
      pose (bad := {| ValidateBasic := Some (ErrTx "invalid");
                      asTxWithTimeoutHeight := None;
                      asTxWithMemo := None;
                      asSigVerifiableTx := None |}).
      specialize (Hskip stop bad).
      rewrite validateBasic_run in Hskip.
      destruct m; destruct (IsReCheckTx ctx); simpl in Hskip;
        try discriminate Hskip; split; reflexivity.
    + intros [-> Hre] next tx.
      rewrite validateBasic_run, Hre. reflexivity.
  - intros next tx.
    pose proof (validateBasic_run next m ctx tx req w) as Hrun.
    destruct m; destruct (IsReCheckTx ctx);
      try (left; split; reflexivity);
      right; destruct (ValidateBasic tx); exact Hrun.
Qed.

End ValidateBasicStage.

(** On a recheck the failing validation is not seen by CheckTx; DeliverTx
    returns its error without reaching the next handler. *)
Example validateBasic_recheck_example :
  run (ValidateBasicMiddleware Example.terminal) ModeCheck
    (Example.context 5 true 10) (Example.bareTx (Some (ErrTx "bad msg"))) tt
    (Example.world Example.defaultParams 1000)
  = (Ok 0, Example.world Example.defaultParams 1000)
  /\
  run (ValidateBasicMiddleware Example.unreachable) ModeDeliver
    (Example.context 5 true 10) (Example.bareTx (Some (ErrTx "bad msg"))) tt
    (Example.world Example.defaultParams 1000)
  = (Err (ErrTx "bad msg"), Example.world Example.defaultParams 1000).
Proof. split; reflexivity. Qed.

(** ** Missing capabilities *)

Section MissingCapability.

Context {E : External}.

(** C7. A transaction that lacks the capability a stage requires makes the
    stage return the decode error, in every mode and whatever the next
    handler is; store and gas meter are as before the call, so that nothing
    was charged and the next handler was not reached. *)
Theorem missing_capability_decode_error (ak : AccountKeeper) (next : Handler)
    (m : Mode) (ctx : Context) (tx : Tx) (req : Request m) (w : World) :
  (asTxWithTimeoutHeight tx = None ->
   run (TxTimeoutHeightMiddleware next) m ctx tx req w =
   (Err (ErrTxDecode "expected tx to implement TxWithTimeoutHeight"), w))
  /\
  (asTxWithMemo tx = None ->
   run (ValidateMemoMiddleware ak next) m ctx tx req w =
   (Err (ErrTxDecode "invalid transaction type"), w))
  /\
  (asSigVerifiableTx tx = None ->
   run (ConsumeTxSizeGasMiddleware ak next) m ctx tx req w =
   (Err (ErrTxDecode "invalid tx type"), w)).
Proof.
  repeat split; intros Hcap; destruct m; simpl.
  - unfold txTimeoutHeightMiddleware_CheckTx, checkTimeout. rewrite Hcap. reflexivity.
  - unfold txTimeoutHeightMiddleware_DeliverTx, checkTimeout. rewrite Hcap. reflexivity.
  - unfold txTimeoutHeightMiddleware_SimulateTx, checkTimeout. rewrite Hcap. reflexivity.
  - unfold validateMemoMiddleware_CheckTx, checkForValidMemo. rewrite Hcap. reflexivity.
  - unfold validateMemoMiddleware_DeliverTx, checkForValidMemo. rewrite Hcap. reflexivity.
  - unfold validateMemoMiddleware_SimulateTx, checkForValidMemo. rewrite Hcap. reflexivity.
  - unfold consumeTxSizeGasMiddleware_CheckTx. rewrite Hcap. reflexivity.
  - unfold consumeTxSizeGasMiddleware_DeliverTx. rewrite Hcap. reflexivity.
  - unfold consumeTxSizeGasMiddleware_SimulateTx. rewrite Hcap. reflexivity.
Qed.

End MissingCapability.

(** The three stages on a transaction without any capability, in front of
    a handler that would panic: the gas meter keeps its empty record. *)
Lemma missing_capability_witness :
  let tx := Example.bareTx None in
  let ctx := Example.context 5 false 10 in
  let w := Example.world Example.defaultParams 1000 in
  asTxWithTimeoutHeight tx = None /\
  asTxWithMemo tx = None /\
  asSigVerifiableTx tx = None /\
  run (TxTimeoutHeightMiddleware Example.unreachable) ModeSimulate ctx tx tt w =
    (Err (ErrTxDecode "expected tx to implement TxWithTimeoutHeight"), w) /\
  run (ValidateMemoMiddleware Example.keeper Example.unreachable) ModeSimulate ctx tx tt w =
    (Err (ErrTxDecode "invalid transaction type"), w) /\
  run (ConsumeTxSizeGasMiddleware Example.keeper Example.unreachable) ModeSimulate ctx tx tt w =
    (Err (ErrTxDecode "invalid tx type"), w) /\
  charges (gasMeter w) = [].
Proof.
  intros tx ctx w.
  pose proof (missing_capability_decode_error (E := Example.external)
                Example.keeper Example.unreachable ModeSimulate ctx tx tt w)
    as [Htimeout [Hmemo Hsig]].
  exact (conj eq_refl (conj eq_refl (conj eq_refl
          (conj (Htimeout eq_refl) (conj (Hmemo eq_refl) (conj (Hsig eq_refl) eq_refl)))))).
Defined.

(** ** The timeout-height stage *)

(** Closes a range [a <= x < b] or a comparison on closed terms. *)
Ltac compute_range :=
  unfold Go.is_len, Go.is_uint64, Go.is_int64;
  repeat split;
  first [ apply Z.leb_le | apply Z.ltb_lt | apply Z.gtb_gt | apply Z.geb_ge ];
  vm_compute; reflexivity.

Lemma uint64_small (x : Z) : 0 <= x < 2 ^ 64 -> Go.uint64 x = x.
Proof. intros H. unfold Go.uint64. apply Z.mod_small. exact H. Qed.

Lemma uint64_negative (x : Z) : - 2 ^ 63 <= x < 0 -> Go.uint64 x = x + 2 ^ 64.
Proof.
  intros H. unfold Go.uint64.
  symmetry. apply Z.mod_unique with (q := -1); lia.
Qed.

Lemma gtb_andb_iff (h u : Z) : (h >? 0) && (u >? h) = true <-> h > 0 /\ u > h.
Proof.
  rewrite andb_true_iff, !Z.gtb_ltb, !Z.ltb_lt. lia.
Qed.

Section TimeoutStage.

Context {E : External}.

Lemma checkTimeout_eq (ctx : Context) (tx : Tx) (h : Z) :
  asTxWithTimeoutHeight tx = Some h ->
  checkTimeout ctx tx =
  if (h >? 0) && (Go.uint64 (BlockHeight ctx) >? h)
  then Some (ErrTxTimeoutHeight (BlockHeight ctx) h)
  else None.
Proof. intros Hcap. unfold checkTimeout. rewrite Hcap. reflexivity. Qed.

(** The stage is the check followed by the next handler, in every mode. *)
Lemma txTimeoutHeight_run (next : Handler) (m : Mode) (ctx : Context) (tx : Tx)
    (req : Request m) (w : World) :
  run (TxTimeoutHeightMiddleware next) m ctx tx req w =
  match checkTimeout ctx tx with
  | Some e => (Err e, w)
  | None => run next m ctx tx req w
  end.
Proof.
  destruct m; simpl;
    unfold txTimeoutHeightMiddleware_CheckTx, txTimeoutHeightMiddleware_DeliverTx,
      txTimeoutHeightMiddleware_SimulateTx;
    apply bind_check.
Qed.

Lemma checkTimeout_fails_iff (ctx : Context) (tx : Tx) (h : Z) :
  asTxWithTimeoutHeight tx = Some h ->
  (checkTimeout ctx tx = Some (ErrTxTimeoutHeight (BlockHeight ctx) h)
   <-> h > 0 /\ Go.uint64 (BlockHeight ctx) > h).
Proof.
  intros Hcap. rewrite (checkTimeout_eq ctx tx h Hcap).
  rewrite <- gtb_andb_iff.
  destruct ((h >? 0) && (Go.uint64 (BlockHeight ctx) >? h)); split; intro H;
    try reflexivity; discriminate H.
Qed.

Lemma checkTimeout_passes_iff (ctx : Context) (tx : Tx) (h : Z) :
  asTxWithTimeoutHeight tx = Some h ->
  (checkTimeout ctx tx = None <-> ~ (h > 0 /\ Go.uint64 (BlockHeight ctx) > h)).
Proof.
  intros Hcap. rewrite (checkTimeout_eq ctx tx h Hcap).
  rewrite <- gtb_andb_iff.
  destruct ((h >? 0) && (Go.uint64 (BlockHeight ctx) >? h)); split; intro H;
    try reflexivity; try discriminate H.
  - exfalso. apply H. reflexivity.
  - intros Habs. discriminate Habs.
Qed.

(** C4, as the code has it.  For a transaction with timeout height [h] and
    a context with block height [b], the check fails, with the timeout error
    carrying [b] and [h], if and only if [h > 0] and [uint64(b) > h]; it
    passes otherwise, in particular for [h = 0].  For a block height that is
    not negative the condition is [h > 0] and [b > h].  The stage is this
    check and then the next handler in each of the three modes; the recheck
    flag plays no part. *)
Theorem txTimeoutHeight_fails_iff (next : Handler) (m : Mode) (ctx : Context)
    (tx : Tx) (req : Request m) (w : World) (h : Z) :
  asTxWithTimeoutHeight tx = Some h ->
  (checkTimeout ctx tx = Some (ErrTxTimeoutHeight (BlockHeight ctx) h)
   <-> h > 0 /\ Go.uint64 (BlockHeight ctx) > h)
  /\
  (checkTimeout ctx tx = None <-> ~ (h > 0 /\ Go.uint64 (BlockHeight ctx) > h))
  /\
  (0 <= BlockHeight ctx < 2 ^ 63 ->
   (checkTimeout ctx tx = Some (ErrTxTimeoutHeight (BlockHeight ctx) h)
    <-> h > 0 /\ BlockHeight ctx > h))
  /\
  (h = 0 -> checkTimeout ctx tx = None)
  /\
  run (TxTimeoutHeightMiddleware next) m ctx tx req w =
  match checkTimeout ctx tx with
  | Some e => (Err e, w)
  | None => run next m ctx tx req w
  end.
Proof.
  intros Hcap.
  split; [apply checkTimeout_fails_iff; exact Hcap | ].
  split; [apply checkTimeout_passes_iff; exact Hcap | ].
  split.
  { intros Hb.
    rewrite (checkTimeout_fails_iff ctx tx h Hcap).
    rewrite uint64_small by lia. reflexivity. }
  split.
  { intros ->. apply (checkTimeout_passes_iff ctx tx 0 Hcap). lia. }
  apply txTimeoutHeight_run.
Qed.

(** C9, as the code has it.  A negative block height [b] is converted to
    [b + 2^64], which is at least [2^63].  The check then fails for every
    timeout height [h] with [0 < h < b + 2^64], so for every [h] between 1
    and [2^63 - 1], although [b] is below [h]; for [h] from [b + 2^64] on it
    passes. *)
Theorem txTimeoutHeight_negative_height (next : Handler) (m : Mode) (ctx : Context)
    (tx : Tx) (req : Request m) (w : World) (h : Z) :
  asTxWithTimeoutHeight tx = Some h ->
  - 2 ^ 63 <= BlockHeight ctx < 0 ->
  h > 0 ->
  Go.uint64 (BlockHeight ctx) = BlockHeight ctx + 2 ^ 64
  /\ 2 ^ 63 <= Go.uint64 (BlockHeight ctx)
  /\ (h < BlockHeight ctx + 2 ^ 64 ->
      BlockHeight ctx < h /\
      run (TxTimeoutHeightMiddleware next) m ctx tx req w =
      (Err (ErrTxTimeoutHeight (BlockHeight ctx) h), w))
  /\ (h < 2 ^ 63 ->
      run (TxTimeoutHeightMiddleware next) m ctx tx req w =
      (Err (ErrTxTimeoutHeight (BlockHeight ctx) h), w))
  /\ (BlockHeight ctx + 2 ^ 64 <= h ->
      run (TxTimeoutHeightMiddleware next) m ctx tx req w = run next m ctx tx req w).
Proof.
  intros Hcap Hb Hh.
  pose proof (uint64_negative (BlockHeight ctx) Hb) as Hwrap.
  assert (Hfail : h < BlockHeight ctx + 2 ^ 64 ->
                  run (TxTimeoutHeightMiddleware next) m ctx tx req w =
                  (Err (ErrTxTimeoutHeight (BlockHeight ctx) h), w)).
  { intros Hlt. rewrite txTimeoutHeight_run.
    replace (checkTimeout ctx tx)
      with (Some (ErrTxTimeoutHeight (BlockHeight ctx) h)); [reflexivity | ].
    symmetry. apply (checkTimeout_fails_iff ctx tx h Hcap). lia. }
  split; [exact Hwrap | ].
  split; [lia | ].
  split; [intros Hlt; split; [lia | apply Hfail; exact Hlt] | ].
  split; [intros Hlt; apply Hfail; lia | ].
  intros Hge. rewrite txTimeoutHeight_run.
  replace (checkTimeout ctx tx) with (@None Error); [reflexivity | ].
  symmetry. apply (checkTimeout_passes_iff ctx tx h Hcap). lia.
Qed.

End TimeoutStage.

(** Block height 101 is past the timeout height 100. *)
Lemma txTimeoutHeight_fails_iff_witness :
  asTxWithTimeoutHeight (Example.fullTx 100 "" [] []) = Some 100 /\
  (checkTimeout (Example.context 101 false 0) (Example.fullTx 100 "" [] [])
   = Some (ErrTxTimeoutHeight 101 100)
   <-> 100 > 0 /\ Go.uint64 101 > 100).
Proof.
  split; [reflexivity | ].
  exact (proj1 (txTimeoutHeight_fails_iff (E := Example.external)
                  Example.terminal ModeCheck (Example.context 101 false 0)
                  (Example.fullTx 100 "" [] []) tt
                  (Example.world Example.defaultParams 1000) 100 eq_refl)).
Defined.

(** At block height 100 the same transaction passes; at 101 it fails. *)
Example txTimeoutHeight_scenario :
  run (TxTimeoutHeightMiddleware Example.terminal) ModeDeliver
    (Example.context 100 false 0) (Example.fullTx 100 "" [] []) tt
    (Example.world Example.defaultParams 1000)
  = (Ok 0, Example.world Example.defaultParams 1000)
  /\
  run (TxTimeoutHeightMiddleware Example.terminal) ModeDeliver
    (Example.context 101 false 0) (Example.fullTx 100 "" [] []) tt
    (Example.world Example.defaultParams 1000)
  = (Err (ErrTxTimeoutHeight 101 100), Example.world Example.defaultParams 1000).
Proof. split; reflexivity. Qed.

(** With block height -1 and timeout height 1 the stage fails, in all three
    modes, although -1 is not above 1. *)
Lemma txTimeoutHeight_negative_counterexample :
  asTxWithTimeoutHeight (Example.fullTx 1 "" [] []) = Some 1 /\
  checkTimeout (Example.context (-1) false 0) (Example.fullTx 1 "" [] [])
  = Some (ErrTxTimeoutHeight (-1) 1) /\
  run (TxTimeoutHeightMiddleware Example.terminal) ModeCheck
    (Example.context (-1) false 0) (Example.fullTx 1 "" [] []) tt
    (Example.world Example.defaultParams 1000)
  = (Err (ErrTxTimeoutHeight (-1) 1), Example.world Example.defaultParams 1000) /\
  run (TxTimeoutHeightMiddleware Example.terminal) ModeDeliver
    (Example.context (-1) false 0) (Example.fullTx 1 "" [] []) tt
    (Example.world Example.defaultParams 1000)
  = (Err (ErrTxTimeoutHeight (-1) 1), Example.world Example.defaultParams 1000) /\
  run (TxTimeoutHeightMiddleware Example.terminal) ModeSimulate
    (Example.context (-1) false 0) (Example.fullTx 1 "" [] []) tt
    (Example.world Example.defaultParams 1000)
  = (Err (ErrTxTimeoutHeight (-1) 1), Example.world Example.defaultParams 1000) /\
  ~ (1 > 0 /\ -1 > 1).
Proof.
  repeat (split; [vm_compute; reflexivity | ]).
  lia.
Qed.

(** Block height -1 and timeout height 5. *)
Lemma txTimeoutHeight_negative_height_witness :
  asTxWithTimeoutHeight (Example.fullTx 5 "" [] []) = Some 5 /\
  - 2 ^ 63 <= BlockHeight (Example.context (-1) false 0) < 0 /\
  5 > 0 /\
  run (TxTimeoutHeightMiddleware Example.unreachable) ModeDeliver
    (Example.context (-1) false 0) (Example.fullTx 5 "" [] []) tt
    (Example.world Example.defaultParams 1000)
  = (Err (ErrTxTimeoutHeight (-1) 5), Example.world Example.defaultParams 1000).
Proof.
  assert (Hb : - 2 ^ 63 <= BlockHeight (Example.context (-1) false 0) < 0)
    by (simpl; lia).
  assert (Hh : 5 > 0) by lia.
  split; [reflexivity | ].
  split; [exact Hb | ].
  split; [exact Hh | ].
  refine (proj1 (proj2 (proj2 (proj2
            (txTimeoutHeight_negative_height (E := Example.external)
               Example.unreachable ModeDeliver (Example.context (-1) false 0)
               (Example.fullTx 5 "" [] []) tt
               (Example.world Example.defaultParams 1000) 5 eq_refl Hb Hh)))) _).
  lia.
Defined.

(** With block height -1 and timeout height [2^64 - 1] the converted height
    is [2^64 - 1], which is not above the timeout height: the stage passes. *)
Lemma txTimeoutHeight_wrap_counterexample :
  asTxWithTimeoutHeight (Example.fullTx (2 ^ 64 - 1) "" [] []) = Some (2 ^ 64 - 1) /\
  BlockHeight (Example.context (-1) false 0) < 0 /\
  2 ^ 64 - 1 > 0 /\
  Go.is_uint64 (2 ^ 64 - 1) /\
  2 ^ 63 <= Go.uint64 (BlockHeight (Example.context (-1) false 0)) /\
  checkTimeout (Example.context (-1) false 0) (Example.fullTx (2 ^ 64 - 1) "" [] []) = None /\
  run (TxTimeoutHeightMiddleware Example.terminal) ModeDeliver
    (Example.context (-1) false 0) (Example.fullTx (2 ^ 64 - 1) "" [] []) tt
    (Example.world Example.defaultParams 1000)
  = (Ok 0, Example.world Example.defaultParams 1000).
Proof.
  split; [reflexivity | ].
  split; [simpl; lia | ].
  split; [lia | ].
  split; [unfold Go.is_uint64; lia | ].
  split; [vm_compute; discriminate | ].
  split; vm_compute; reflexivity.
Qed.

(** ** The memo stage *)

Lemma length_string_of_list_ascii (l : list ascii) :
  String.length (string_of_list_ascii l) = List.length l.
Proof.
  induction l as [ | c l IHl]; simpl; [reflexivity | ].
  rewrite IHl. reflexivity.
Qed.

Lemma utf8_rune_nonempty (r : Z) : (1 <= List.length (UTF8.utf8_rune r))%nat.
Proof.
  unfold UTF8.utf8_rune, UTF8.rune_error.
  repeat match goal with
         | |- context [if ?c then _ else _] => destruct c
         end; simpl; lia.
Qed.

(** A string has at least as many bytes as characters. *)
Lemma characters_le_strlen (runes : list Z) :
  UTF8.characters runes <= Go.strlen (UTF8.encode runes).
Proof.
  unfold UTF8.characters, UTF8.encode, Go.len, Go.strlen.
  rewrite length_string_of_list_ascii.
  apply Nat2Z.inj_le.
  induction runes as [ | r runes IHrunes]; simpl; [lia | ].
  rewrite length_app.
  pose proof (utf8_rune_nonempty r). lia.
Qed.

Section MemoStage.

Context {E : External}.

Lemma checkForValidMemo_eq (ak : AccountKeeper) (ctx : Context) (tx : Tx)
    (memo : string) (w : World) :
  asTxWithMemo tx = Some memo ->
  checkForValidMemo ak ctx tx w =
  (if Go.uint64 (Go.strlen memo) >? MaxMemoCharacters (GetParams ak (store w))
   then Err (ErrMemoTooLarge (MaxMemoCharacters (GetParams ak (store w))) (Go.strlen memo))
   else Ok tt, w).
Proof.
  intros Hcap. unfold checkForValidMemo. rewrite Hcap, bind_getParams.
  destruct (Go.uint64 (Go.strlen memo) >? MaxMemoCharacters (GetParams ak (store w)));
    reflexivity.
Qed.

(** The stage is the check followed by the next handler, in every mode. *)
Lemma validateMemo_run (ak : AccountKeeper) (next : Handler) (m : Mode)
    (ctx : Context) (tx : Tx) (req : Request m) (w : World) :
  run (ValidateMemoMiddleware ak next) m ctx tx req w =
  (checkForValidMemo ak ctx tx ;;; run next m ctx tx req) w.
Proof. destruct m; reflexivity. Qed.

Lemma strlen_uint64 (memo : string) :
  Go.is_len (Go.strlen memo) -> Go.uint64 (Go.strlen memo) = Go.strlen memo.
Proof. unfold Go.is_len. intros H. apply uint64_small. lia. Qed.

(** C5. For a transaction with a memo of [L] bytes and the limit [M] that
    the parameters of the current state give, the check fails, with the
    memo error carrying [M] and [L], if and only if [L > M], and passes if
    and only if [L <= M], so also for [L = M].  In each of the three modes
    the stage returns that error without going on, or goes on to the next
    handler. *)
Theorem validateMemo_fails_iff (ak : AccountKeeper) (next : Handler) (m : Mode)
    (ctx : Context) (tx : Tx) (req : Request m) (w : World) (memo : string) :
  asTxWithMemo tx = Some memo ->
  Go.is_len (Go.strlen memo) ->
  let M := MaxMemoCharacters (GetParams ak (store w)) in
  let L := Go.strlen memo in
  (checkForValidMemo ak ctx tx w = (Err (ErrMemoTooLarge M L), w) <-> L > M)
  /\
  (checkForValidMemo ak ctx tx w = (Ok tt, w) <-> L <= M)
  /\
  (L > M -> run (ValidateMemoMiddleware ak next) m ctx tx req w = (Err (ErrMemoTooLarge M L), w))
  /\
  (L <= M -> run (ValidateMemoMiddleware ak next) m ctx tx req w = run next m ctx tx req w).
Proof.
  intros Hcap Hlen M L.
  pose proof (checkForValidMemo_eq ak ctx tx memo w Hcap) as Hcheck.
  rewrite (strlen_uint64 memo Hlen) in Hcheck.
  fold M in Hcheck. fold L in Hcheck.
  rewrite validateMemo_run. unfold bind. rewrite Hcheck.
  rewrite Z.gtb_ltb.
  destruct (Z.ltb_spec M L) as [Hlt | Hge].
  - repeat split; intros; try reflexivity; try lia; discriminate.
  - repeat split; intros; try reflexivity; try lia; discriminate.
Qed.

(** C10. The length compared with the limit is the number of bytes of the
    memo.  A memo whose characters are at most [M] but whose UTF-8 encoding
    is longer than [M] bytes is refused in every mode, and the error carries
    the number of bytes. *)
Theorem validateMemo_counts_bytes (ak : AccountKeeper) (next : Handler) (m : Mode)
    (ctx : Context) (tx : Tx) (req : Request m) (w : World) (runes : list Z) :
  asTxWithMemo tx = Some (UTF8.encode runes) ->
  Go.is_len (Go.strlen (UTF8.encode runes)) ->
  UTF8.characters runes <= MaxMemoCharacters (GetParams ak (store w)) ->
  MaxMemoCharacters (GetParams ak (store w)) < Go.strlen (UTF8.encode runes) ->
  run (ValidateMemoMiddleware ak next) m ctx tx req w =
  (Err (ErrMemoTooLarge (MaxMemoCharacters (GetParams ak (store w)))
          (Go.strlen (UTF8.encode runes))), w).
Proof.
  intros Hcap Hlen _ Hbytes.
  pose proof (checkForValidMemo_eq ak ctx tx (UTF8.encode runes) w Hcap) as Hcheck.
  rewrite (strlen_uint64 _ Hlen) in Hcheck.
  rewrite validateMemo_run. unfold bind. rewrite Hcheck.
  rewrite Z.gtb_ltb.
  destruct (Z.ltb_spec (MaxMemoCharacters (GetParams ak (store w)))
              (Go.strlen (UTF8.encode runes))) as [Hlt | Hge].
  - reflexivity.
  - lia.
Qed.

End MemoStage.

(** A memo of 260 bytes against the limit 256. *)
Lemma validateMemo_fails_iff_witness :
  let memo := string_of_list_ascii (repeat "m"%char 260) in
  let tx := Example.fullTx 0 memo [] [] in
  let w := Example.world Example.defaultParams 1000 in
  asTxWithMemo tx = Some memo /\
  Go.is_len (Go.strlen memo) /\
  run (ValidateMemoMiddleware Example.keeper Example.unreachable) ModeCheck
    (Example.context 5 false 0) tx tt w
  = (Err (ErrMemoTooLarge 256 260), w).
Proof.
  intros memo tx w.
  assert (Hlen : Go.is_len (Go.strlen memo)) by compute_range.
  split; [reflexivity | ].
  split; [exact Hlen | ].
  refine (proj1 (proj2 (proj2
            (validateMemo_fails_iff (E := Example.external) Example.keeper
               Example.unreachable ModeCheck (Example.context 5 false 0) tx tt w
               memo eq_refl Hlen))) _).
  vm_compute. reflexivity.
Defined.

(** A memo of exactly 256 bytes passes. *)
Example validateMemo_at_limit :
  run (ValidateMemoMiddleware Example.keeper Example.terminal) ModeDeliver
    (Example.context 5 false 0)
    (Example.fullTx 0 (string_of_list_ascii (repeat "m"%char 256)) [] []) tt
    (Example.world Example.defaultParams 1000)
  = (Ok 0, Example.world Example.defaultParams 1000).
Proof. vm_compute. reflexivity. Qed.

(** The memo of the single character U+00E9, two bytes, against the
    limit 1. *)
Lemma validateMemo_counts_bytes_witness :
  let tx := Example.fullTx 0 (UTF8.encode [233]) [] [] in
  let w := Example.world
             {| MaxMemoCharacters := 1; TxSigLimit := 7; TxSizeCostPerByte := 10 |} 1000 in
  asTxWithMemo tx = Some (UTF8.encode [233]) /\
  Go.is_len (Go.strlen (UTF8.encode [233])) /\
  UTF8.characters [233] <= 1 /\
  1 < Go.strlen (UTF8.encode [233]) /\
  run (ValidateMemoMiddleware Example.keeper Example.unreachable) ModeSimulate
    (Example.context 5 false 0) tx tt w
  = (Err (ErrMemoTooLarge 1 2), w).
Proof.
  intros tx w.
  assert (Hlen : Go.is_len (Go.strlen (UTF8.encode [233]))) by compute_range.
  assert (Hchars : UTF8.characters [233] <= 1) by compute_range.
  assert (Hbytes : 1 < Go.strlen (UTF8.encode [233])) by compute_range.
  split; [reflexivity | ].
  split; [exact Hlen | ].
  split; [exact Hchars | ].
  split; [exact Hbytes | ].
  exact (validateMemo_counts_bytes (E := Example.external) Example.keeper
           Example.unreachable ModeSimulate (Example.context 5 false 0) tx tt w
           [233] eq_refl Hlen Hchars Hbytes).
Defined.

(** The bytes of U+00E9, U+20AC and U+1F600. *)
Example utf8_encode_example :
  UTF8.encode [233] = String (ascii_of_nat 195) (String (ascii_of_nat 169) EmptyString)
  /\ Go.strlen (UTF8.encode [8364]) = 3
  /\ Go.strlen (UTF8.encode [128512]) = 4
  /\ UTF8.encode [97; 98] = "ab".
Proof. repeat split. Qed.

(** ** The gas stage: the charge for the size of the transaction *)

Section GasStage.

Context {E : External}.

Lemma txSizeGas_eq (params : Params) (ctx : Context) :
  Go.is_len (Go.len (TxBytes ctx)) ->
  txSizeGas params ctx = (TxSizeCostPerByte params * Go.len (TxBytes ctx)) mod 2 ^ 64.
Proof.
  intros Hlen. unfold txSizeGas, Go.mul64.
  rewrite uint64_small; [reflexivity | ].
  unfold Go.is_len in Hlen. lia.
Qed.

(** C2, as the code has it.  For a transaction that can be verified by
    signatures, every mode starts with one call of the gas meter, for
    [(rate * n) mod 2^64] units under the label txSize, where [rate] is the
    cost per byte of the current parameters and [n] the number of raw bytes.
    If the meter panics the call ends there.  Otherwise CheckTx and DeliverTx
    go on to the next handler at once, and SimulateTx to the signatures.
    The amount is the same in the three modes and is [rate * n] whenever that
    product is below [2^64]. *)
Theorem consumeTxSizeGas_base_charge (ak : AccountKeeper) (next : Handler)
    (ctx : Context) (tx : Tx) (sigTx : SigVerifiableTx)
    (reqC : Request ModeCheck) (reqD : Request ModeDeliver) (reqS : Request ModeSimulate)
    (w : World) :
  asSigVerifiableTx tx = Some sigTx ->
  Go.is_len (Go.len (TxBytes ctx)) ->
  let params := GetParams ak (store w) in
  let amount := (TxSizeCostPerByte params * Go.len (TxBytes ctx)) mod 2 ^ 64 in
  let w1 := {| store := store w; gasMeter := charge amount "txSize" (gasMeter w) |} in
  let exhausted := limit (gasMeter w) <? consumed (gasMeter w) + amount in
  CheckTx (ConsumeTxSizeGasMiddleware ak next) ctx tx reqC w =
    (if exhausted then (Panic (ErrorOutOfGas "txSize"), w1)
     else CheckTx next ctx tx reqC w1)
  /\
  DeliverTx (ConsumeTxSizeGasMiddleware ak next) ctx tx reqD w =
    (if exhausted then (Panic (ErrorOutOfGas "txSize"), w1)
     else DeliverTx next ctx tx reqD w1)
  /\
  SimulateTx (ConsumeTxSizeGasMiddleware ak next) ctx tx reqS w =
    (if exhausted then (Panic (ErrorOutOfGas "txSize"), w1)
     else match GetSignaturesV2 sigTx with
          | inr err => (Err err, w1)
          | inl sigs =>
              (simulateSigGas ak params sigs 0 (GetSigners sigTx) ;;;
               SimulateTx next ctx tx reqS) w1
          end)
  /\
  charges (gasMeter w1) = (charges (gasMeter w) ++ [(amount, "txSize")])%list
  /\
  consumed (gasMeter w1) = consumed (gasMeter w) + amount
  /\
  (0 <= TxSizeCostPerByte params ->
   TxSizeCostPerByte params * Go.len (TxBytes ctx) < 2 ^ 64 ->
   amount = TxSizeCostPerByte params * Go.len (TxBytes ctx)).
Proof.
  intros Hcap Hlen params amount w1 exhausted.
  assert (Hgas : txSizeGas params ctx = amount) by (apply txSizeGas_eq; exact Hlen).
  assert (Hstep : forall (B : Type) (k : M B),
             (ConsumeGas (txSizeGas params ctx) "txSize" ;;; k) w =
             if exhausted then (Panic (ErrorOutOfGas "txSize"), w1) else k w1).
  { intros B k. unfold bind. rewrite ConsumeGas_eq, Hgas.
    fold exhausted. fold w1. destruct exhausted; reflexivity. }
  split.
  { simpl. unfold consumeTxSizeGasMiddleware_CheckTx.
    rewrite Hcap, bind_getParams. apply Hstep. }
  split.
  { simpl. unfold consumeTxSizeGasMiddleware_DeliverTx.
    rewrite Hcap, bind_getParams. apply Hstep. }
  split.
  { simpl. unfold consumeTxSizeGasMiddleware_SimulateTx.
    rewrite Hcap, bind_getParams. fold params. rewrite Hstep.
    destruct exhausted; [reflexivity | ].
    destruct (GetSignaturesV2 sigTx); reflexivity. }
  split; [reflexivity | ].
  split; [reflexivity | ].
  intros Hrate Hprod. unfold amount.
  apply Z.mod_small. unfold Go.is_len in Hlen. nia.
Qed.

End GasStage.

(** Ten raw bytes at the rate 10: one charge of 100 in every mode. *)
Lemma consumeTxSizeGas_base_charge_witness :
  let ctx := Example.context 5 false 10 in
  let tx := Example.fullTx 0 "" [] [] in
  let w := Example.world Example.defaultParams 1000 in
  let w1 := Example.worldWith Example.defaultParams
              {| consumed := 100; limit := 1000; charges := [(100, "txSize")] |} in
  Go.is_len (Go.len (TxBytes ctx)) /\
  run (ConsumeTxSizeGasMiddleware Example.keeper Example.terminal) ModeCheck ctx tx tt w
  = (Ok 0, w1) /\
  run (ConsumeTxSizeGasMiddleware Example.keeper Example.terminal) ModeDeliver ctx tx tt w
  = (Ok 0, w1) /\
  run (ConsumeTxSizeGasMiddleware Example.keeper Example.terminal) ModeSimulate ctx tx tt w
  = (Ok 0, w1).
Proof.
  intros ctx tx w w1.
  assert (Hlen : Go.is_len (Go.len (TxBytes ctx))) by compute_range.
  split; [exact Hlen | ].
  destruct (consumeTxSizeGas_base_charge (E := Example.external) Example.keeper
              Example.terminal ctx tx
              {| GetSigners := []; GetSignaturesV2 := inl [] |} tt tt tt w eq_refl Hlen)
    as [Hcheck [Hdeliver [Hsimulate _]]].
  exact (conj Hcheck (conj Hdeliver Hsimulate)).
Defined.

(** At the rate [2^63] a transaction of two raw bytes is charged 0 in
    every mode, while the rate times the length is [2^64]. *)
Lemma consumeTxSizeGas_overflow_counterexample :
  let ctx := Example.context 5 false 2 in
  let tx := Example.fullTx 0 "" [] [] in
  let w := Example.world Example.steepParams 1000 in
  Go.is_uint64 (TxSizeCostPerByte Example.steepParams) /\
  TxSizeCostPerByte Example.steepParams * Go.len (TxBytes ctx) = 2 ^ 64 /\
  charges (gasMeter (snd (run (ConsumeTxSizeGasMiddleware Example.keeper Example.terminal)
                            ModeCheck ctx tx tt w))) = [(0, "txSize")] /\
  charges (gasMeter (snd (run (ConsumeTxSizeGasMiddleware Example.keeper Example.terminal)
                            ModeDeliver ctx tx tt w))) = [(0, "txSize")] /\
  charges (gasMeter (snd (run (ConsumeTxSizeGasMiddleware Example.keeper Example.terminal)
                            ModeSimulate ctx tx tt w))) = [(0, "txSize")] /\
  consumed (gasMeter (snd (run (ConsumeTxSizeGasMiddleware Example.keeper Example.terminal)
                             ModeDeliver ctx tx tt w))) = 0.
Proof.
  intros ctx tx w.
  split; [compute_range | ].
  repeat split; vm_compute; reflexivity.
Qed.

(** ** The gas stage: the signatures of a simulation *)

Section SimulatedSignatures.

Context {E : External}.

(** The test at the head of the loop holds when position [i] has a
    signature and that signature is complete. *)
Lemma sigFilledAt_iff (sigs : list SignatureV2) (i : nat) :
  sigFilledAt sigs i = true <->
  exists sig, nth_error sigs i = Some sig /\ ~ Incomplete (Data sig).
Proof.
  unfold sigFilledAt.
  destruct (nth_error sigs i) as [sig | ].
  - rewrite negb_true_iff, isIncompleteSignature_false_iff.
    split.
    + intros H. exists sig. split; [reflexivity | exact H].
    + intros [sig' [Heq H]]. injection Heq as ->. exact H.
  - split; [discriminate | ].
    intros [sig [Heq _]]. discriminate Heq.
Qed.

Lemma ConsumeGas_store (amount : Z) (descriptor : string) (w w' : World) (o : Outcome unit) :
  ConsumeGas amount descriptor w = (o, w') -> store w' = store w.
Proof.
  rewrite ConsumeGas_eq. intros H. injection H as _ <-. reflexivity.
Qed.

(** The body of the loop is one call of the gas meter. *)
Lemma simulateSignerGas_eq (ak : AccountKeeper) (params : Params) (signer : list byte)
    (w : World) :
  simulateSignerGas ak params signer w =
  ConsumeGas
    (Go.mul64 (TxSizeCostPerByte params)
       (simSigCost params (resolvePubKey (GetAccount ak (store w) signer))))
    "txSize" w.
Proof. reflexivity. Qed.

Lemma simulateSigGas_store (ak : AccountKeeper) (params : Params) (sigs : list SignatureV2)
    (signers : list (list byte)) :
  forall (i : nat) (w w' : World) (o : Outcome unit),
    simulateSigGas ak params sigs i signers w = (o, w') -> store w' = store w.
Proof.
  induction signers as [ | signer rest IHrest]; intros i w w' o H; simpl in H.
  - injection H as _ <-. reflexivity.
  - destruct (sigFilledAt sigs i).
    + apply (IHrest _ _ _ _ H).
    + unfold bind in H. rewrite simulateSignerGas_eq in H.
      destruct (ConsumeGas _ "txSize" w) as [[[] | e | p] w0] eqn:Hgas;
        apply ConsumeGas_store in Hgas.
      * rewrite (IHrest _ _ _ _ H). exact Hgas.
      * injection H as _ <-. exact Hgas.
      * injection H as _ <-. exact Hgas.
Qed.

(** The loop over [pre ++ post] is the loop over [pre] and then the loop
    over [post] from the index it has reached. *)
Lemma simulateSigGas_app (ak : AccountKeeper) (params : Params) (sigs : list SignatureV2)
    (pre post : list (list byte)) :
  forall (i : nat) (w : World),
    simulateSigGas ak params sigs i (pre ++ post)%list w =
    (simulateSigGas ak params sigs i pre ;;;
     simulateSigGas ak params sigs (i + List.length pre) post) w.
Proof.
  induction pre as [ | signer pre IHpre]; intros i w; simpl.
  - rewrite Nat.add_0_r. reflexivity.
  - rewrite Nat.add_succ_r.
    destruct (sigFilledAt sigs i).
    + apply IHpre.
    + rewrite bind_assoc. apply bind_ext. intros _ w'. apply IHpre.
Qed.

(** C1, as the code has it.  Take a simulation in which the signatures
    were retrieved and the loop has reached the signer at position [i]
    without a panic of the gas meter.  If position [i] has a signature and it
    is complete, the stage goes on to the next signer and charges nothing.
    Otherwise it calls the gas meter once, under the label txSize, for
    [(rate * cost) mod 2^64], where [cost] is the length of the marshalled
    placeholder signature with the resolved key plus 6, multiplied modulo
    [2^64] by the signature limit when that key is a legacy multi-signature
    key.  The resolved key is the placeholder key when the account is absent
    or has no key, and the key of the account otherwise.  Without overflow
    the amount is [rate * (size + 6)], times the limit for a
    multi-signature key. *)
Theorem simulate_signer_gas (ak : AccountKeeper) (next : Handler) (ctx : Context)
    (sdkTx : Tx) (sigTx : SigVerifiableTx) (req : Request ModeSimulate)
    (sigs : list SignatureV2) (pre post : list (list byte)) (signer : list byte)
    (w w1 : World) :
  asSigVerifiableTx sdkTx = Some sigTx ->
  GetSignaturesV2 sigTx = inl sigs ->
  GetSigners sigTx = (pre ++ signer :: post)%list ->
  let params := GetParams ak (store w) in
  let i := List.length pre in
  (ConsumeGas (txSizeGas params ctx) "txSize" ;;;
   simulateSigGas ak params sigs 0 pre) w = (Ok tt, w1) ->
  let acc := GetAccount ak (store w) signer in
  let pubkey := resolvePubKey acc in
  let size := Go.len (MustMarshalStdSignature simSecp256k1Sig pubkey) in
  let cost :=
    if isLegacyAminoPubKey pubkey
    then (((size + 6) mod 2 ^ 64) * TxSigLimit params) mod 2 ^ 64
    else (size + 6) mod 2 ^ 64 in
  let amount := (TxSizeCostPerByte params * cost) mod 2 ^ 64 in
  let w2 := {| store := store w1; gasMeter := charge amount "txSize" (gasMeter w1) |} in
  let rest :=
    simulateSigGas ak params sigs (S i) post ;;; SimulateTx next ctx sdkTx req in
  ((exists sig, nth_error sigs i = Some sig /\ ~ Incomplete (Data sig)) ->
   SimulateTx (ConsumeTxSizeGasMiddleware ak next) ctx sdkTx req w = rest w1)
  /\
  (~ (exists sig, nth_error sigs i = Some sig /\ ~ Incomplete (Data sig)) ->
   SimulateTx (ConsumeTxSizeGasMiddleware ak next) ctx sdkTx req w =
   if limit (gasMeter w1) <? consumed (gasMeter w1) + amount
   then (Panic (ErrorOutOfGas "txSize"), w2)
   else rest w2)
  /\
  charges (gasMeter w2) = (charges (gasMeter w1) ++ [(amount, "txSize")])%list
  /\
  ((acc = None \/ exists a, acc = Some a /\ GetPubKey a = None) ->
   pubkey = simSecp256k1Pubkey)
  /\
  (forall a pk, acc = Some a -> GetPubKey a = Some pk -> pubkey = pk)
  /\
  (let plain := if isLegacyAminoPubKey pubkey
                then (size + 6) * TxSigLimit params else size + 6 in
   0 <= TxSizeCostPerByte params -> 0 <= TxSigLimit params ->
   plain < 2 ^ 64 -> TxSizeCostPerByte params * plain < 2 ^ 64 ->
   amount = TxSizeCostPerByte params * plain).
Proof.
  intros Hcap Hsigs Hsigners params i Hreach acc pubkey size cost amount w2 rest.
  assert (Hsize : 0 <= size) by (unfold size, Go.len; lia).
  (* the run up to position [i] *)
  assert (Hrun : SimulateTx (ConsumeTxSizeGasMiddleware ak next) ctx sdkTx req w =
                 (simulateSigGas ak params sigs i (signer :: post) ;;;
                  SimulateTx next ctx sdkTx req) w1
                 /\ store w1 = store w).
  { simpl. unfold consumeTxSizeGasMiddleware_SimulateTx.
    rewrite Hcap, bind_getParams, Hsigs, Hsigners. fold params.
    unfold bind in Hreach. unfold bind at 1.
    destruct (ConsumeGas (txSizeGas params ctx) "txSize" w) as [[[] | e | p] w0] eqn:Hbase;
      try discriminate Hreach.
    apply ConsumeGas_store in Hbase.
    pose proof (simulateSigGas_store _ _ _ _ _ _ _ _ Hreach) as Hstore.
    split; [ | congruence].
    unfold bind at 1. rewrite simulateSigGas_app.
    unfold bind at 1. rewrite Hreach. reflexivity. }
  destruct Hrun as [Hrun Hstore].
  assert (Hcost : Go.mul64 (TxSizeCostPerByte params)
                    (simSigCost params (resolvePubKey (GetAccount ak (store w1) signer)))
                  = amount).
  { rewrite Hstore. reflexivity. }
  split.
  { intros Hfilled. apply sigFilledAt_iff in Hfilled.
    rewrite Hrun. unfold bind at 1. simpl. rewrite Hfilled. reflexivity. }
  split.
  { intros Hempty.
    assert (Hfilled : sigFilledAt sigs i = false).
    { destruct (sigFilledAt sigs i) eqn:Hf; [ | reflexivity].
      exfalso. apply Hempty. apply sigFilledAt_iff. exact Hf. }
    rewrite Hrun. unfold bind at 1. simpl. rewrite Hfilled.
    unfold bind at 1. rewrite simulateSignerGas_eq, Hcost, ConsumeGas_eq.
    fold w2.
    destruct (limit (gasMeter w1) <? consumed (gasMeter w1) + amount); reflexivity. }
  split; [reflexivity | ].
  split.
  { unfold pubkey, resolvePubKey.
    intros [-> | [a [-> Hkey]]]; [reflexivity | ].
    rewrite Hkey. reflexivity. }
  split.
  { unfold pubkey, resolvePubKey. intros a pk -> Hkey. rewrite Hkey. reflexivity. }
  intros plain Hrate Hlimit Hplain Hprod.
  unfold amount. replace cost with plain; [apply Z.mod_small | ].
  - split; [ | exact Hprod].
    apply Z.mul_nonneg_nonneg; [exact Hrate | ].
    unfold plain. destruct (isLegacyAminoPubKey pubkey); nia.
  - unfold plain, cost in *.
    destruct (isLegacyAminoPubKey pubkey).
    + destruct (Z.eq_dec (TxSigLimit params) 0) as [Hz | Hnz].
      * rewrite Hz, !Z.mul_0_r. reflexivity.
      * assert (Hsmall : size + 6 < 2 ^ 64) by nia.
        rewrite (Z.mod_small (size + 6)) by lia.
        symmetry. apply Z.mod_small. nia.
    + symmetry. apply Z.mod_small. lia.
Qed.

End SimulatedSignatures.

(** Three signers at the rate 10 with a signature limit of 7 and ten raw
    bytes: the first has a complete signature, the second, at position 1,
    has none and a multi-signature key (130 bytes marshalled), the third has
    none and a single key (70 bytes marshalled). *)
Lemma simulate_signer_gas_witness :
  let ctx := Example.context 5 false 10 in
  let tx := Example.fullTx 0 "" [Example.alice; Example.bob; Example.carol] [Example.single] in
  let w := Example.world Example.defaultParams 100000 in
  let w1 := Example.worldWith Example.defaultParams
              {| consumed := 100; limit := 100000; charges := [(100, "txSize")] |} in
  (ConsumeGas (txSizeGas Example.defaultParams ctx) "txSize" ;;;
   simulateSigGas Example.keeper Example.defaultParams [Example.single] 0 [Example.alice]) w
  = (Ok tt, w1) /\
  ~ (exists sig, nth_error [Example.single] 1 = Some sig /\ ~ Incomplete (Data sig)) /\
  run (ConsumeTxSizeGasMiddleware Example.keeper Example.terminal) ModeSimulate ctx tx tt w
  = (Ok 0,
     Example.worldWith Example.defaultParams
       {| consumed := 10380; limit := 100000;
          charges := [(100, "txSize"); (9520, "txSize"); (760, "txSize")] |}).
Proof.
  intros ctx tx w w1.
  assert (Hreach : (ConsumeGas (txSizeGas Example.defaultParams ctx) "txSize" ;;;
                    simulateSigGas Example.keeper Example.defaultParams
                      [Example.single] 0 [Example.alice]) w = (Ok tt, w1))
    by reflexivity.
  assert (Hempty : ~ (exists sig, nth_error [Example.single] 1 = Some sig
                                  /\ ~ Incomplete (Data sig))).
  { intros [sig [Heq _]]. discriminate Heq. }
  split; [exact Hreach | ].
  split; [exact Hempty | ].
  exact (proj1 (proj2
           (simulate_signer_gas (E := Example.external) Example.keeper Example.terminal
              ctx tx
              {| GetSigners := [Example.alice; Example.bob; Example.carol];
                 GetSignaturesV2 := inl [Example.single] |}
              tt [Example.single] [Example.alice] [Example.carol] Example.bob
              w w1 eq_refl eq_refl eq_refl Hreach)) Hempty).
Defined.

(** One signed signer and one unsigned signer with a single key of
    simulated size 70, at the rate 10: the extra charge is 760. *)
Example simulate_two_signers :
  run (ConsumeTxSizeGasMiddleware Example.keeper Example.terminal) ModeSimulate
    (Example.context 5 false 10)
    (Example.fullTx 0 "" [Example.alice; Example.carol] [Example.single]) tt
    (Example.world Example.defaultParams 100000)
  = (Ok 0,
     Example.worldWith Example.defaultParams
       {| consumed := 860; limit := 100000;
          charges := [(100, "txSize"); (760, "txSize")] |}).
Proof. vm_compute. reflexivity. Qed.

(** At the rate [2^63] a signer without signature and without a known key
    has the placeholder key, 97 bytes marshalled, so a cost of 103; the
    stage charges [2^63], not 103 times the rate. *)
Lemma simulate_signer_gas_overflow_counterexample :
  let ctx := Example.context 5 false 0 in
  let tx := Example.fullTx 0 "" [Example.alice] [] in
  let w := Example.world Example.steepParams (2 ^ 64 - 1) in
  let pubkey := @simSecp256k1Pubkey Example.external in
  Go.is_uint64 (TxSizeCostPerByte Example.steepParams) /\
  resolvePubKey (GetAccount Example.keeper Example.steepParams Example.alice) = pubkey /\
  @isLegacyAminoPubKey Example.external pubkey = false /\
  Go.len (@MustMarshalStdSignature Example.external
            (@simSecp256k1Sig Example.external) pubkey) = 97 /\
  TxSizeCostPerByte Example.steepParams * (97 + 6) = 103 * 2 ^ 63 /\
  run (ConsumeTxSizeGasMiddleware Example.keeper Example.terminal) ModeSimulate ctx tx tt w
  = (Ok 0,
     Example.worldWith Example.steepParams
       {| consumed := 2 ^ 63; limit := 2 ^ 64 - 1;
          charges := [(0, "txSize"); (2 ^ 63, "txSize")] |}) /\
  2 ^ 63 <> 103 * 2 ^ 63.
Proof.
  intros ctx tx w pubkey.
  split; [compute_range | ].
  repeat (split; [vm_compute; reflexivity | ]).
  lia.
Qed.

(** ** Chains *)

Section Chains.

Context {E : External}.

Lemma handler_equiv_refl (h : Handler) : handler_equiv h h.
Proof. intros m ctx tx req w. reflexivity. Qed.

(** Every stage of this package treats its next handler as a black box:
    next handlers that cannot be told apart give stages that cannot be told
    apart. *)
Lemma middlewareOf_equiv (s : Stage) (h1 h2 : Handler) :
  handler_equiv h1 h2 -> handler_equiv (middlewareOf s h1) (middlewareOf s h2).
Proof.
  intros H m ctx tx req w.
  destruct s as [ | | ak | ak]; cbn [middlewareOf].
  - rewrite !validateBasic_run.
    destruct m; destruct (IsReCheckTx ctx); destruct (ValidateBasic tx);
      try reflexivity; apply H.
  - rewrite !txTimeoutHeight_run.
    destruct (checkTimeout ctx tx); [reflexivity | apply H].
  - rewrite !validateMemo_run.
    apply bind_ext. intros _ w'. apply H.
  - destruct m; simpl.
    + unfold consumeTxSizeGasMiddleware_CheckTx.
      destruct (asSigVerifiableTx tx); [ | reflexivity].
      apply bind_ext. intros params w'.
      apply bind_ext. intros _ w''. apply (H ModeCheck).
    + unfold consumeTxSizeGasMiddleware_DeliverTx.
      destruct (asSigVerifiableTx tx); [ | reflexivity].
      apply bind_ext. intros params w'.
      apply bind_ext. intros _ w''. apply (H ModeDeliver).
    + unfold consumeTxSizeGasMiddleware_SimulateTx.
      destruct (asSigVerifiableTx tx) as [sigTx | ]; [ | reflexivity].
      apply bind_ext. intros params w'.
      apply bind_ext. intros _ w''.
      destruct (GetSignaturesV2 sigTx); [ | reflexivity].
      apply bind_ext. intros _ w'''. apply (H ModeSimulate).
Qed.

(** The first constructor of the list is the outermost wrapper. *)
Lemma ComposeMiddlewares_cons (txHandler : Handler) (mw : Middleware)
    (middlewares : list Middleware) :
  ComposeMiddlewares txHandler (mw :: middlewares) =
  mw (ComposeMiddlewares txHandler middlewares).
Proof. reflexivity. Qed.

(** Chains of the stages of this package respect [handler_equiv]: over
    terminal handlers that cannot be told apart, the same stages in the same
    order give chains that cannot be told apart. *)
Lemma ComposeMiddlewares_equiv (stages : list Stage)
    (terminal1 terminal2 : Handler) :
  handler_equiv terminal1 terminal2 ->
  handler_equiv
    (ComposeMiddlewares terminal1 (map middlewareOf stages))
    (ComposeMiddlewares terminal2 (map middlewareOf stages)).
Proof.
  intros Hterminal.
  induction stages as [ | s stages IHstages].
  - exact Hterminal.
  - simpl map. rewrite !ComposeMiddlewares_cons.
    apply middlewareOf_equiv. exact IHstages.
Qed.

End Chains.

(** The chain of the four stages over the terminal handler of the
    example. *)
Lemma ComposeMiddlewares_equiv_example :
  let stages := [StageValidateBasic; StageTxTimeoutHeight;
                 StageValidateMemo Example.keeper;
                 StageConsumeTxSizeGas Example.keeper] in
  handler_equiv Example.terminal Example.terminal /\
  handler_equiv
    (ComposeMiddlewares Example.terminal (map middlewareOf stages))
    (ComposeMiddlewares Example.terminal (map middlewareOf stages)).
Proof.
  intros stages.
  pose proof (handler_equiv_refl (E := Example.external) Example.terminal) as Hterminal.
  split; [exact Hterminal | ].
  exact (ComposeMiddlewares_equiv (E := Example.external) stages
           Example.terminal Example.terminal Hterminal).
Defined.

(** The whole chain on a recheck of a transaction whose validation fails:
    the validation is skipped, the other stages run, the size is charged. *)
Example chain_recheck :
  run (ComposeMiddlewares Example.terminal
         (map middlewareOf
            [StageValidateBasic; StageTxTimeoutHeight;
             StageValidateMemo Example.keeper;
             StageConsumeTxSizeGas Example.keeper]))
    ModeCheck (Example.context 5 true 10)
    {| ValidateBasic := Some (ErrTx "malformed");
       asTxWithTimeoutHeight := Some 0;
       asTxWithMemo := Some "hello";
       asSigVerifiableTx :=
         Some {| GetSigners := [Example.alice]; GetSignaturesV2 := inl [] |} |}
    tt (Example.world Example.defaultParams 1000)
  = (Ok 0,
     Example.worldWith Example.defaultParams
       {| consumed := 100; limit := 1000; charges := [(100, "txSize")] |}).
Proof. vm_compute. reflexivity. Qed.

(** * Further properties of the stages *)

(** ** The loop over the signers as a whole *)

Lemma mul64_range (a b : Z) : 0 <= Go.mul64 a b < 2 ^ 64.
Proof. unfold Go.mul64. apply Z.mod_pos_bound. lia. Qed.

Lemma totalGas_app (l1 l2 : list (Z * string)) :
  totalGas (l1 ++ l2) = totalGas l1 + totalGas l2.
Proof.
  induction l1 as [ | c l1 IHl1]; simpl; [reflexivity | ].
  rewrite IHl1. lia.
Qed.

Lemma totalGas_nonneg (l : list (Z * string)) :
  Forall (fun c => 0 <= fst c) l -> 0 <= totalGas l.
Proof.
  induction 1 as [ | c l Hc Hl IHl]; simpl; lia.
Qed.

(** A prefix of a record of charges that are not negative sums to no more
    than the whole record. *)
Lemma totalGas_firstn_le (l : list (Z * string)) (k : nat) :
  Forall (fun c => 0 <= fst c) l -> totalGas (firstn k l) <= totalGas l.
Proof.
  intros Hl.
  rewrite <- (firstn_skipn k l) at 2.
  rewrite totalGas_app.
  assert (0 <= totalGas (skipn k l)); [ | lia].
  apply totalGas_nonneg.
  rewrite Forall_forall in *.
  intros c Hc. apply Hl.
  rewrite <- (firstn_skipn k l). apply in_or_app. right. exact Hc.
Qed.

Section SignerLoop.

Context {E : External}.

(** Every expected charge is labelled txSize and is a [uint64]. *)
Lemma sigCharges_range (ak : AccountKeeper) (st : Store) (params : Params)
    (sigs : list SignatureV2) (signers : list (list byte)) :
  forall i,
    Forall (fun c => snd c = "txSize" /\ 0 <= fst c < 2 ^ 64)
      (sigCharges ak st params sigs i signers).
Proof.
  induction signers as [ | signer rest IHrest]; intros i; simpl.
  - constructor.
  - destruct (sigFilledAt sigs i); simpl; [apply IHrest | ].
    constructor; [ | apply IHrest].
    split; [reflexivity | apply mul64_range].
Qed.

Lemma sigCharges_nonneg (ak : AccountKeeper) (st : Store) (params : Params)
    (sigs : list SignatureV2) (signers : list (list byte)) (i : nat) :
  Forall (fun c => 0 <= fst c) (sigCharges ak st params sigs i signers).
Proof.
  eapply Forall_impl; [ | apply sigCharges_range].
  intros c [_ Hc]. lia.
Qed.

Lemma sigCharges_length (ak : AccountKeeper) (st : Store) (params : Params)
    (sigs : list SignatureV2) (signers : list (list byte)) :
  forall i, (List.length (sigCharges ak st params sigs i signers) <= List.length signers)%nat.
Proof.
  induction signers as [ | signer rest IHrest]; intros i; simpl; [lia | ].
  rewrite length_app. specialize (IHrest (S i)).
  destruct (sigFilledAt sigs i); simpl; lia.
Qed.

(** The loop makes the expected charges in order until the signers are
    through or the gas meter panics; it touches nothing else. *)
Lemma simulateSigGas_run (ak : AccountKeeper) (params : Params)
    (sigs : list SignatureV2) (signers : list (list byte)) :
  forall (i : nat) (w : World),
    let r := simulateSigGas ak params sigs i signers w in
    let expected := sigCharges ak (store w) params sigs i signers in
    store (snd r) = store w /\
    limit (gasMeter (snd r)) = limit (gasMeter w) /\
    exists k,
      charges (gasMeter (snd r)) = (charges (gasMeter w) ++ firstn k expected)%list /\
      consumed (gasMeter (snd r)) = consumed (gasMeter w) + totalGas (firstn k expected) /\
      ((fst r = Ok tt /\ firstn k expected = expected /\
        (expected <> [] -> consumed (gasMeter (snd r)) <= limit (gasMeter w)))
       \/
       (fst r = Panic (ErrorOutOfGas "txSize") /\
        limit (gasMeter w) < consumed (gasMeter (snd r)))).
Proof.
  induction signers as [ | signer rest IHrest]; intros i w; cbv zeta.
  - simpl. repeat split.
    exists 0%nat. simpl. rewrite app_nil_r, Z.add_0_r.
    repeat split. left. repeat split. intros H. exfalso. apply H. reflexivity.
  - cbn [simulateSigGas sigCharges].
    destruct (sigFilledAt sigs i).
    + apply IHrest.
    + unfold bind. rewrite simulateSignerGas_eq, ConsumeGas_eq.
      set (amount := Go.mul64 (TxSizeCostPerByte params)
                       (simSigCost params (resolvePubKey (GetAccount ak (store w) signer)))).
      set (w0 := {| store := store w; gasMeter := charge amount "txSize" (gasMeter w) |}).
      destruct (limit (gasMeter w) <? consumed (gasMeter w) + amount) eqn:Hgas.
      * apply Z.ltb_lt in Hgas.
        simpl. repeat split.
        exists 1%nat. simpl. rewrite Z.add_0_r.
        repeat split. right. split; [reflexivity | exact Hgas].
      * apply Z.ltb_ge in Hgas.
        destruct (IHrest (S i) w0) as [Hstore [Hlimit [k [Hcharges [Hconsumed Hend]]]]].
        change (store w0) with (store w) in *.
        change (limit (gasMeter w0)) with (limit (gasMeter w)) in *.
        change (charges (gasMeter w0))
          with (charges (gasMeter w) ++ [(amount, "txSize")])%list in *.
        change (consumed (gasMeter w0)) with (consumed (gasMeter w) + amount) in *.
        split; [exact Hstore | ].
        split; [exact Hlimit | ].
        exists (S k). cbn [firstn app totalGas fold_right fst].
        split; [rewrite Hcharges, <- app_assoc; reflexivity | ].
        split; [rewrite Hconsumed; unfold totalGas; lia | ].
        destruct Hend as [[Hok [Hall Hfit]] | [Hpanic Hover]].
        -- left. split; [exact Hok | ].
           split; [rewrite Hall; reflexivity | ].
           intros _.
           destruct (sigCharges ak (store w) params sigs (S i) rest) as [ | c cs] eqn:Hrest.
           ++ rewrite Hconsumed, firstn_nil. simpl. lia.
           ++ apply Hfit. discriminate.
        -- right. split; [exact Hpanic | exact Hover].
Qed.

End SignerLoop.

Section SignerLoopProperties.

Context {E : External}.

(** X1. From a gas meter within its limit, the loop over the signers ends
    without a panic exactly when the consumption so far plus the sum of the
    expected charges is within the limit; it then leaves the expected
    charges, in the order of the signers, behind the earlier ones, the
    consumption raised by their sum, and the store and the limit as they
    were. *)
Theorem simulateSigGas_enough_gas (ak : AccountKeeper) (params : Params)
    (sigs : list SignatureV2) (signers : list (list byte)) (i : nat) (w : World) :
  consumed (gasMeter w) <= limit (gasMeter w) ->
  let expected := sigCharges ak (store w) params sigs i signers in
  (fst (simulateSigGas ak params sigs i signers w) = Ok tt
   <-> consumed (gasMeter w) + totalGas expected <= limit (gasMeter w))
  /\
  (consumed (gasMeter w) + totalGas expected <= limit (gasMeter w) ->
   simulateSigGas ak params sigs i signers w =
   (Ok tt,
    {| store := store w;
       gasMeter := {| consumed := consumed (gasMeter w) + totalGas expected;
                      limit := limit (gasMeter w);
                      charges := charges (gasMeter w) ++ expected |} |})).
Proof.
  intros Hwithin expected.
  destruct (simulateSigGas_run ak params sigs signers i w)
    as [Hstore [Hlimit [k [Hcharges [Hconsumed Hend]]]]].
  fold expected in Hcharges, Hconsumed, Hend.
  pose proof (totalGas_firstn_le expected k
                (sigCharges_nonneg ak (store w) params sigs signers i)) as Hprefix.
  assert (Hiff : fst (simulateSigGas ak params sigs i signers w) = Ok tt
                 <-> consumed (gasMeter w) + totalGas expected <= limit (gasMeter w)).
  { split.
    - intros Hok.
      destruct Hend as [[_ [Hall Hfit]] | [Hpanic _]];
        [ | rewrite Hok in Hpanic; discriminate Hpanic].
      destruct expected as [ | c cs] eqn:Hexp.
      + simpl. lia.
      + rewrite Hall in Hconsumed. rewrite <- Hconsumed. apply Hfit. discriminate.
    - intros Hfit.
      destruct Hend as [[Hok _] | [_ Hover]]; [exact Hok | lia]. }
  split; [exact Hiff | ].
  intros Hfit. apply Hiff in Hfit.
  destruct Hend as [[_ [Hall _]] | [Hpanic _]];
    [ | rewrite Hfit in Hpanic; discriminate Hpanic].
  rewrite Hall in Hcharges, Hconsumed.
  destruct (simulateSigGas ak params sigs i signers w) as [o [st [c l ch]]].
  simpl in *. subst. reflexivity.
Qed.

(** X2. Whatever the gas meter holds, the loop over the signers keeps the
    store and the limit, never lowers the consumption, only appends to the
    record of charges, at most one charge per signer, each labelled txSize
    and each a [uint64], and ends either normally or with the out-of-gas
    panic labelled txSize; it never returns an error. *)
Theorem simulateSigGas_invariants (ak : AccountKeeper) (params : Params)
    (sigs : list SignatureV2) (signers : list (list byte)) (i : nat) (w : World) :
  let r := simulateSigGas ak params sigs i signers w in
  store (snd r) = store w /\
  limit (gasMeter (snd r)) = limit (gasMeter w) /\
  consumed (gasMeter w) <= consumed (gasMeter (snd r)) /\
  (exists added,
     charges (gasMeter (snd r)) = (charges (gasMeter w) ++ added)%list /\
     consumed (gasMeter (snd r)) = consumed (gasMeter w) + totalGas added /\
     (List.length added <= List.length signers)%nat /\
     Forall (fun c => snd c = "txSize" /\ 0 <= fst c < 2 ^ 64) added) /\
  (fst r = Ok tt \/ fst r = Panic (ErrorOutOfGas "txSize")).
Proof.
  intros r.
  destruct (simulateSigGas_run ak params sigs signers i w)
    as [Hstore [Hlimit [k [Hcharges [Hconsumed Hend]]]]].
  fold r in Hstore, Hlimit, Hcharges, Hconsumed, Hend.
  set (expected := sigCharges ak (store w) params sigs i signers) in *.
  assert (Hrange : Forall (fun c => snd c = "txSize" /\ 0 <= fst c < 2 ^ 64)
                     (firstn k expected)).
  { pose proof (sigCharges_range ak (store w) params sigs signers i) as Hall.
    fold expected in Hall.
    rewrite <- (firstn_skipn k expected) in Hall.
    apply Forall_app in Hall. exact (proj1 Hall). }
  split; [exact Hstore | ].
  split; [exact Hlimit | ].
  split.
  { rewrite Hconsumed.
    assert (0 <= totalGas (firstn k expected)); [ | lia].
    apply totalGas_nonneg.
    eapply Forall_impl; [ | exact Hrange]. intros c [_ Hc]. lia. }
  split.
  { exists (firstn k expected).
    split; [exact Hcharges | ].
    split; [exact Hconsumed | ].
    split; [ | exact Hrange].
    rewrite length_firstn.
    pose proof (sigCharges_length ak (store w) params sigs signers i) as Hlen.
    fold expected in Hlen. lia. }
  destruct Hend as [[Hok _] | [Hpanic _]]; [left | right]; assumption.
Qed.

(** The loop charges nothing when every position has a complete
    signature. *)
Lemma simulateSigGas_all_filled (ak : AccountKeeper) (params : Params)
    (sigs : list SignatureV2) (signers : list (list byte)) :
  forall (i : nat) (w : World),
    (forall j, (j < List.length signers)%nat -> sigFilledAt sigs (i + j) = true) ->
    simulateSigGas ak params sigs i signers w = (Ok tt, w).
Proof.
  induction signers as [ | signer rest IHrest]; intros i w Hfilled; simpl.
  - reflexivity.
  - pose proof (Hfilled 0%nat) as Hhead.
    rewrite Nat.add_0_r in Hhead. rewrite Hhead by (simpl; lia).
    apply IHrest. intros j Hj.
    rewrite Nat.add_succ_l, <- Nat.add_succ_r.
    apply Hfilled. simpl. lia.
Qed.

(** X3. A simulation of a transaction in which every signer has a complete
    signature is charged like a delivery: the stage makes the one charge for
    the size of the transaction and goes on to the next handler. *)
Theorem simulate_fully_signed (ak : AccountKeeper) (next : Handler) (ctx : Context)
    (sdkTx : Tx) (sigTx : SigVerifiableTx) (req : Request ModeSimulate)
    (sigs : list SignatureV2) (w : World) :
  asSigVerifiableTx sdkTx = Some sigTx ->
  GetSignaturesV2 sigTx = inl sigs ->
  (forall j, (j < List.length (GetSigners sigTx))%nat ->
             exists sig, nth_error sigs j = Some sig /\ ~ Incomplete (Data sig)) ->
  SimulateTx (ConsumeTxSizeGasMiddleware ak next) ctx sdkTx req w =
  (ConsumeGas (txSizeGas (GetParams ak (store w)) ctx) "txSize" ;;;
   SimulateTx next ctx sdkTx req) w.
Proof.
  intros Hcap Hsigs Hfilled.
  simpl. unfold consumeTxSizeGasMiddleware_SimulateTx.
  rewrite Hcap, bind_getParams, Hsigs.
  apply bind_ext. intros _ w'.
  unfold bind. rewrite simulateSigGas_all_filled; [reflexivity | ].
  intros j Hj. apply sigFilledAt_iff. apply Hfilled. exact Hj.
Qed.

End SignerLoopProperties.

(** The three signers of the example, the first with a complete
    signature: 9520 for the multi-signature key and 760 for the single key
    fit into the limit. *)
Lemma simulateSigGas_enough_gas_witness :
  let w := Example.world Example.defaultParams 100000 in
  consumed (gasMeter w) <= limit (gasMeter w) /\
  simulateSigGas Example.keeper Example.defaultParams [Example.single] 0
    [Example.alice; Example.bob; Example.carol] w
  = (Ok tt,
     Example.worldWith Example.defaultParams
       {| consumed := 10280; limit := 100000;
          charges := [(9520, "txSize"); (760, "txSize")] |}).
Proof.
  intros w.
  assert (Hwithin : consumed (gasMeter w) <= limit (gasMeter w)) by compute_range.
  split; [exact Hwithin | ].
  refine (proj2 (simulateSigGas_enough_gas (E := Example.external) Example.keeper
                   Example.defaultParams [Example.single]
                   [Example.alice; Example.bob; Example.carol] 0%nat w Hwithin) _).
  compute_range.
Defined.

(** With a limit of 9000 the same loop panics at the second signer and the
    third is not charged. *)
Example simulateSigGas_out_of_gas :
  simulateSigGas Example.keeper Example.defaultParams [Example.single] 0
    [Example.alice; Example.bob; Example.carol]
    (Example.world Example.defaultParams 9000)
  = (Panic (ErrorOutOfGas "txSize"),
     Example.worldWith Example.defaultParams
       {| consumed := 9520; limit := 9000; charges := [(9520, "txSize")] |}).
Proof. vm_compute. reflexivity. Qed.

(** Two signers, both with a complete signature. *)
Lemma simulate_fully_signed_witness :
  let ctx := Example.context 5 false 10 in
  let sigTx := {| GetSigners := [Example.alice; Example.carol];
                  GetSignaturesV2 := inl [Example.single; Example.single] |} in
  let tx := Example.fullTx 0 "" [Example.alice; Example.carol]
              [Example.single; Example.single] in
  let w := Example.world Example.defaultParams 1000 in
  asSigVerifiableTx tx = Some sigTx /\
  (forall j, (j < List.length (GetSigners sigTx))%nat ->
             exists sig, nth_error [Example.single; Example.single] j = Some sig
                         /\ ~ Incomplete (Data sig)) /\
  run (ConsumeTxSizeGasMiddleware Example.keeper Example.terminal) ModeSimulate ctx tx tt w
  = (Ok 0,
     Example.worldWith Example.defaultParams
       {| consumed := 100; limit := 1000; charges := [(100, "txSize")] |}).
Proof.
  intros ctx sigTx tx w.
  assert (Hfilled : forall j, (j < List.length (GetSigners sigTx))%nat ->
                      exists sig, nth_error [Example.single; Example.single] j = Some sig
                                  /\ ~ Incomplete (Data sig)).
  { intros j Hj.
    assert (Hsingle : ~ Incomplete (Data Example.single))
      by (apply isIncompleteSignature_false_iff; reflexivity).
    destruct j as [ | [ | j]].
    - exists Example.single. split; [reflexivity | exact Hsingle].
    - exists Example.single. split; [reflexivity | exact Hsingle].
    - simpl in Hj. lia. }
  split; [reflexivity | ].
  split; [exact Hfilled | ].
  exact (simulate_fully_signed (E := Example.external) Example.keeper Example.terminal
           ctx tx sigTx tt [Example.single; Example.single] w eq_refl eq_refl Hfilled).
Defined.

Section GasStageOutcomes.

Context {E : External}.

Lemma bind_ConsumeGas {B : Type} (amount : Z) (descriptor : string) (k : M B) (w : World) :
  (ConsumeGas amount descriptor ;;; k) w =
  if limit (gasMeter w) <? consumed (gasMeter w) + amount
  then (Panic (ErrorOutOfGas descriptor),
        {| store := store w; gasMeter := charge amount descriptor (gasMeter w) |})
  else k {| store := store w; gasMeter := charge amount descriptor (gasMeter w) |}.
Proof.
  unfold bind. rewrite ConsumeGas_eq.
  destruct (limit (gasMeter w) <? consumed (gasMeter w) + amount); reflexivity.
Qed.

(** X4. A call of the gas stage on a transaction that can be verified by
    signatures ends in one of three ways.  The gas meter panics out of gas
    under the label txSize, with the consumption above the limit.  Or, in
    SimulateTx only, retrieving the signatures fails and that error is
    returned after the charge for the size was made.  Or the next handler
    is entered, and then in a world with the same store and limit, a
    consumption that has not decreased and is within the limit, and a
    record of charges extended by the charge for the size first. *)
Theorem consumeTxSizeGas_outcomes (ak : AccountKeeper) (next : Handler) (m : Mode)
    (ctx : Context) (tx : Tx) (sigTx : SigVerifiableTx) (req : Request m) (w : World) :
  asSigVerifiableTx tx = Some sigTx ->
  let base := txSizeGas (GetParams ak (store w)) ctx in
  let r := run (ConsumeTxSizeGasMiddleware ak next) m ctx tx req w in
  (fst r = Panic (ErrorOutOfGas "txSize") /\
   store (snd r) = store w /\
   limit (gasMeter (snd r)) < consumed (gasMeter (snd r)))
  \/
  (m = ModeSimulate /\
   exists err, GetSignaturesV2 sigTx = inr err /\
               r = (Err err,
                    {| store := store w; gasMeter := charge base "txSize" (gasMeter w) |}))
  \/
  (exists w',
     r = run next m ctx tx req w' /\
     store w' = store w /\
     limit (gasMeter w') = limit (gasMeter w) /\
     consumed (gasMeter w) <= consumed (gasMeter w') <= limit (gasMeter w') /\
     exists added,
       charges (gasMeter w') = (charges (gasMeter w) ++ (base, "txSize") :: added)%list).
Proof.
  intros Hcap base r.
  pose proof (mul64_range (TxSizeCostPerByte (GetParams ak (store w)))
                (Go.uint64 (Go.len (TxBytes ctx)))) as Hbase.
  fold (txSizeGas (GetParams ak (store w)) ctx) in Hbase. fold base in Hbase.
  set (w1 := {| store := store w; gasMeter := charge base "txSize" (gasMeter w) |}).
  assert (Hdirect : (limit (gasMeter w) <? consumed (gasMeter w) + base) = false ->
            store w1 = store w /\
            limit (gasMeter w1) = limit (gasMeter w) /\
            consumed (gasMeter w) <= consumed (gasMeter w1) <= limit (gasMeter w1) /\
            exists added,
              charges (gasMeter w1) = (charges (gasMeter w) ++ (base, "txSize") :: added)%list).
  { intros Hgas. apply Z.ltb_ge in Hgas. simpl.
    repeat split; try lia. exists []. reflexivity. }
  destruct m; subst r; simpl run.
  - unfold consumeTxSizeGasMiddleware_CheckTx.
    rewrite Hcap, bind_getParams, bind_ConsumeGas.
    fold base. fold w1.
    destruct (limit (gasMeter w) <? consumed (gasMeter w) + base) eqn:Hgas.
    + left. apply Z.ltb_lt in Hgas. simpl. repeat split. exact Hgas.
    + right. right. exists w1. split; [reflexivity | apply Hdirect; reflexivity].
  - unfold consumeTxSizeGasMiddleware_DeliverTx.
    rewrite Hcap, bind_getParams, bind_ConsumeGas.
    fold base. fold w1.
    destruct (limit (gasMeter w) <? consumed (gasMeter w) + base) eqn:Hgas.
    + left. apply Z.ltb_lt in Hgas. simpl. repeat split. exact Hgas.
    + right. right. exists w1. split; [reflexivity | apply Hdirect; reflexivity].
  - unfold consumeTxSizeGasMiddleware_SimulateTx.
    rewrite Hcap, bind_getParams, bind_ConsumeGas.
    fold base. fold w1.
    destruct (limit (gasMeter w) <? consumed (gasMeter w) + base) eqn:Hgas.
    + left. apply Z.ltb_lt in Hgas. simpl. repeat split. exact Hgas.
    + destruct (Hdirect eq_refl) as [_ [_ [Hcons1 _]]].
      destruct (GetSignaturesV2 sigTx) as [sigs | err].
      * destruct (simulateSigGas_run ak (GetParams ak (store w)) sigs (GetSigners sigTx) 0 w1)
          as [Hstore [Hlimit [k [Hcharges [Hconsumed Hend]]]]].
        pose proof (totalGas_nonneg _
                      (sigCharges_nonneg ak (store w1) (GetParams ak (store w)) sigs
                         (GetSigners sigTx) 0)) as Htotal.
        unfold bind.
        destruct (simulateSigGas ak (GetParams ak (store w)) sigs 0 (GetSigners sigTx) w1)
          as [o w2].
        simpl fst in *. simpl snd in *.
        destruct Hend as [[-> [Hall Hfit]] | [-> Hover]].
        -- right. right. exists w2.
           split; [reflexivity | ].
           split; [exact Hstore | ].
           split; [exact Hlimit | ].
           rewrite Hall in Hconsumed, Hcharges.
           split.
           ++ destruct (sigCharges ak (store w1) (GetParams ak (store w)) sigs 0
                          (GetSigners sigTx)) as [ | c cs] eqn:Hexp.
              ** simpl in Hconsumed. rewrite Hlimit, Hconsumed. simpl in *. lia.
              ** assert (consumed (gasMeter w2) <= limit (gasMeter w1))
                   by (apply Hfit; discriminate).
                 rewrite Hlimit. simpl in *. lia.
           ++ eexists. rewrite Hcharges. simpl. rewrite <- app_assoc. reflexivity.
        -- left. simpl. split; [reflexivity | ].
           split; [exact Hstore | ].
           rewrite Hlimit. exact Hover.
      * right. left. split; [reflexivity | ].
        exists err. split; reflexivity.
Qed.

(** X5. The loop over the signers looks at the signatures only to tell
    which positions hold a complete one: two lists of signatures that agree
    on that, for every position of a signer, make the loop do the same,
    whatever their public keys, sequences and signature bytes are. *)
Theorem simulateSigGas_fill_pattern (ak : AccountKeeper) (params : Params)
    (sigs sigs' : list SignatureV2) (signers : list (list byte)) (w : World) :
  (forall j, (j < List.length signers)%nat ->
     ((exists sig, nth_error sigs j = Some sig /\ ~ Incomplete (Data sig))
      <-> (exists sig, nth_error sigs' j = Some sig /\ ~ Incomplete (Data sig)))) ->
  simulateSigGas ak params sigs 0 signers w = simulateSigGas ak params sigs' 0 signers w.
Proof.
  intros Hsame.
  assert (Hgen : forall (rest : list (list byte)) (i : nat) (w0 : World),
             (forall j, (j < List.length rest)%nat ->
                        sigFilledAt sigs (i + j) = sigFilledAt sigs' (i + j)) ->
             simulateSigGas ak params sigs i rest w0 =
             simulateSigGas ak params sigs' i rest w0).
  { induction rest as [ | signer rest IHrest]; intros i w0 Hfill; simpl.
    - reflexivity.
    - pose proof (Hfill 0%nat) as Hhead.
      rewrite Nat.add_0_r in Hhead. rewrite <- Hhead by (simpl; lia).
      assert (Htail : forall w', simulateSigGas ak params sigs (S i) rest w' =
                                 simulateSigGas ak params sigs' (S i) rest w').
      { intros w'. apply IHrest. intros j Hj.
        rewrite Nat.add_succ_l, <- Nat.add_succ_r. apply Hfill. simpl. lia. }
      destruct (sigFilledAt sigs i); [apply Htail | ].
      apply bind_ext. intros _ w'. apply Htail. }
  apply Hgen. intros j Hj. simpl.
  specialize (Hsame j Hj). rewrite <- !sigFilledAt_iff in Hsame.
  destruct (sigFilledAt sigs j), (sigFilledAt sigs' j); try reflexivity.
  - symmetry. apply Hsame. reflexivity.
  - apply Hsame. reflexivity.
Qed.

End GasStageOutcomes.

(** A simulation whose signatures cannot be retrieved: the error comes
    back after the charge of 100 for the ten raw bytes. *)
Lemma consumeTxSizeGas_outcomes_witness :
  let ctx := Example.context 5 false 10 in
  let sigTx := {| GetSigners := [Example.alice];
                  GetSignaturesV2 := inr (ErrTx "no signatures") |} in
  let tx := {| ValidateBasic := None;
               asTxWithTimeoutHeight := None;
               asTxWithMemo := None;
               asSigVerifiableTx := Some sigTx |} in
  let w := Example.world Example.defaultParams 1000 in
  asSigVerifiableTx tx = Some sigTx /\
  run (ConsumeTxSizeGasMiddleware Example.keeper Example.terminal) ModeSimulate ctx tx tt w
  = (Err (ErrTx "no signatures"),
     Example.worldWith Example.defaultParams
       {| consumed := 100; limit := 1000; charges := [(100, "txSize")] |}).
Proof.
  intros ctx sigTx tx w.
  split; [reflexivity | ].
  destruct (consumeTxSizeGas_outcomes (E := Example.external) Example.keeper
              Example.terminal ModeSimulate ctx tx sigTx tt w eq_refl)
    as [[Hpanic _] | [[_ [err [Herr Hrun]]] | [w' [Hnext _]]]].
  - discriminate Hpanic.
  - injection Herr as <-. exact Hrun.
  - discriminate Hnext.
Defined.

(** Two lists of signatures with a complete signature at position 0 and
    none at position 1, differing in bytes, key and sequence. *)
Lemma simulateSigGas_fill_pattern_witness :
  let sigs := [Example.single] in
  let sigs' := [Example.nested; Example.unsigned] in
  let signers := [Example.alice; Example.bob] in
  let w := Example.world Example.defaultParams 100000 in
  (forall j, (j < List.length signers)%nat ->
     ((exists sig, nth_error sigs j = Some sig /\ ~ Incomplete (Data sig))
      <-> (exists sig, nth_error sigs' j = Some sig /\ ~ Incomplete (Data sig)))) /\
  simulateSigGas Example.keeper Example.defaultParams sigs 0 signers w =
  simulateSigGas Example.keeper Example.defaultParams sigs' 0 signers w.
Proof.
  intros sigs sigs' signers w.
  assert (Hsame : forall j, (j < List.length signers)%nat ->
            ((exists sig, nth_error sigs j = Some sig /\ ~ Incomplete (Data sig))
             <-> (exists sig, nth_error sigs' j = Some sig /\ ~ Incomplete (Data sig)))).
  { intros j Hj.
    rewrite <- !(sigFilledAt_iff (E := Example.external)).
    destruct j as [ | [ | j]]; [reflexivity | reflexivity | simpl in Hj; lia]. }
  split; [exact Hsame | ].
  exact (simulateSigGas_fill_pattern (E := Example.external) Example.keeper
           Example.defaultParams sigs sigs' signers w Hsame).
Defined.

(** ** More on the timeout and memo checks *)

Section CheckProperties.

Context {E : External}.

(** X6. Expiry is final: with block heights that are not negative, a
    transaction that the timeout check refuses at one height is refused at
    every later height, and one that it accepts is accepted at every
    earlier height. *)
Theorem checkTimeout_monotone (ctx ctx' : Context) (tx : Tx) (h : Z) :
  asTxWithTimeoutHeight tx = Some h ->
  0 <= BlockHeight ctx <= BlockHeight ctx' ->
  BlockHeight ctx' < 2 ^ 63 ->
  (checkTimeout ctx tx <> None ->
   checkTimeout ctx' tx = Some (ErrTxTimeoutHeight (BlockHeight ctx') h))
  /\
  (checkTimeout ctx' tx = None -> checkTimeout ctx tx = None).
Proof.
  intros Hcap Hb Hb'.
  pose proof (checkTimeout_passes_iff ctx tx h Hcap) as Hpass.
  pose proof (checkTimeout_passes_iff ctx' tx h Hcap) as Hpass'.
  pose proof (checkTimeout_fails_iff ctx' tx h Hcap) as Hfail'.
  rewrite uint64_small in Hpass by lia.
  rewrite uint64_small in Hpass', Hfail' by lia.
  split.
  - intros Hrefused. apply Hfail'.
    destruct (Z_gt_dec h 0) as [Hh | Hh];
      [ | exfalso; apply Hrefused, Hpass; lia].
    destruct (Z_gt_dec (BlockHeight ctx) h) as [Hgt | Hle];
      [lia | exfalso; apply Hrefused, Hpass; lia].
  - intros Haccepted. apply Hpass. apply Hpass' in Haccepted. lia.
Qed.

(** The memo check reads the world and leaves it alone; it never
    panics. *)
Lemma checkForValidMemo_pure (ak : AccountKeeper) (ctx : Context) (tx : Tx) (w : World) :
  snd (checkForValidMemo ak ctx tx w) = w /\
  forall p, fst (checkForValidMemo ak ctx tx w) <> Panic p.
Proof.
  unfold checkForValidMemo.
  destruct (asTxWithMemo tx) as [memo | ]; [ | split; [reflexivity | discriminate]].
  rewrite bind_getParams.
  destruct (Go.uint64 (Go.strlen memo) >? MaxMemoCharacters (GetParams ak (store w)));
    split; try reflexivity; discriminate.
Qed.

(** X7. The memo check is monotone: when a memo passes under some limit,
    every memo that is not longer passes under every limit that is not
    lower; and the empty memo passes under every limit that is not
    negative. *)
Theorem checkForValidMemo_monotone (ak : AccountKeeper) (ctx ctx' : Context)
    (tx tx' : Tx) (memo memo' : string) (w w' : World) :
  asTxWithMemo tx = Some memo ->
  asTxWithMemo tx' = Some memo' ->
  Go.is_len (Go.strlen memo) ->
  (Go.strlen memo' <= Go.strlen memo ->
   MaxMemoCharacters (GetParams ak (store w)) <= MaxMemoCharacters (GetParams ak (store w')) ->
   checkForValidMemo ak ctx tx w = (Ok tt, w) ->
   checkForValidMemo ak ctx' tx' w' = (Ok tt, w'))
  /\
  (memo' = "" ->
   0 <= MaxMemoCharacters (GetParams ak (store w')) ->
   checkForValidMemo ak ctx' tx' w' = (Ok tt, w')).
Proof.
  intros Hcap Hcap' Hlen.
  assert (Hpos : 0 <= Go.strlen memo') by (unfold Go.strlen; lia).
  pose proof (checkForValidMemo_eq ak ctx tx memo w Hcap) as Hcheck.
  pose proof (checkForValidMemo_eq ak ctx' tx' memo' w' Hcap') as Hcheck'.
  rewrite (strlen_uint64 memo Hlen) in Hcheck.
  rewrite Z.gtb_ltb in Hcheck, Hcheck'.
  split.
  - intros Hshorter Hlimit Hpass.
    rewrite Hcheck' , uint64_small by (unfold Go.is_len in Hlen; lia).
    rewrite Hcheck in Hpass.
    destruct (Z.ltb_spec (MaxMemoCharacters (GetParams ak (store w))) (Go.strlen memo));
      [discriminate Hpass | ].
    destruct (Z.ltb_spec (MaxMemoCharacters (GetParams ak (store w'))) (Go.strlen memo'));
      [lia | reflexivity].
  - intros -> Hlimit.
    rewrite Hcheck'. change (Go.uint64 (Go.strlen "")) with 0.
    destruct (Z.ltb_spec (MaxMemoCharacters (GetParams ak (store w'))) 0);
      [lia | reflexivity].
Qed.

(** X8. The three checking stages are idempotent: wrapping a handler twice
    in the ValidateBasic stage, in the timeout stage or in the memo stage
    cannot be told apart from wrapping it once. *)
Theorem check_stages_idempotent (ak : AccountKeeper) (next : Handler) :
  handler_equiv (ValidateBasicMiddleware (ValidateBasicMiddleware next))
    (ValidateBasicMiddleware next)
  /\
  handler_equiv (TxTimeoutHeightMiddleware (TxTimeoutHeightMiddleware next))
    (TxTimeoutHeightMiddleware next)
  /\
  handler_equiv (ValidateMemoMiddleware ak (ValidateMemoMiddleware ak next))
    (ValidateMemoMiddleware ak next).
Proof.
  split; [ | split]; intros m ctx tx req w.
  - rewrite !validateBasic_run.
    destruct m; destruct (IsReCheckTx ctx); destruct (ValidateBasic tx); reflexivity.
  - rewrite !txTimeoutHeight_run.
    destruct (checkTimeout ctx tx); reflexivity.
  - rewrite (validateMemo_run ak (ValidateMemoMiddleware ak next)).
    unfold bind at 1.
    destruct (checkForValidMemo_pure ak ctx tx w) as [Hworld Hpanic].
    destruct (checkForValidMemo ak ctx tx w) as [[[] | e | p] w0] eqn:Hcheck;
      simpl in Hworld; subst w0.
    + rewrite validateMemo_run. reflexivity.
    + rewrite validateMemo_run. unfold bind. rewrite Hcheck. reflexivity.
    + exfalso. apply (Hpanic p). reflexivity.
Qed.

(** X9. The chain of the four stages in their usual order answers with the
    first error among the ValidateBasic, timeout and memo checks, in that
    order, and then leaves store and gas meter untouched, so that nothing is
    charged for a transaction that one of the checks refuses; when the three
    checks pass it behaves as the gas stage alone. *)
Theorem standard_chain_first_failure (ak : AccountKeeper) (next : Handler) (m : Mode)
    (ctx : Context) (tx : Tx) (req : Request m) (w : World) :
  let chain :=
    ValidateBasicMiddleware
      (TxTimeoutHeightMiddleware
         (ValidateMemoMiddleware ak (ConsumeTxSizeGasMiddleware ak next))) in
  match firstCheckError ak m ctx tx w with
  | Some e => run chain m ctx tx req w = (Err e, w)
  | None =>
      run chain m ctx tx req w = run (ConsumeTxSizeGasMiddleware ak next) m ctx tx req w
  end.
Proof.
  intros chain. unfold chain, firstCheckError.
  rewrite validateBasic_run, txTimeoutHeight_run, validateMemo_run.
  destruct (checkForValidMemo_pure ak ctx tx w) as [Hworld Hpanic].
  assert (Hmemo :
    match checkTimeout ctx tx with
    | Some e => (Err e, w)
    | None => (checkForValidMemo ak ctx tx ;;;
               run (ConsumeTxSizeGasMiddleware ak next) m ctx tx req) w
    end =
    match
      match checkTimeout ctx tx with
      | Some e => Some e
      | None => match fst (checkForValidMemo ak ctx tx w) with
                | Err e => Some e
                | _ => None
                end
      end
    with
    | Some e => (Err e, w)
    | None => run (ConsumeTxSizeGasMiddleware ak next) m ctx tx req w
    end).
  { destruct (checkTimeout ctx tx); [reflexivity | ].
    unfold bind.
    destruct (checkForValidMemo ak ctx tx w) as [[[] | e | p] w0];
      simpl in *; subst w0; try reflexivity.
    exfalso. apply (Hpanic p). reflexivity. }
  destruct m; destruct (IsReCheckTx ctx); destruct (ValidateBasic tx);
    try reflexivity;
    match goal with
    | |- context [match checkTimeout ctx tx with _ => _ end] =>
        rewrite Hmemo;
        destruct (checkTimeout ctx tx);
        [reflexivity | destruct (fst (checkForValidMemo ak ctx tx w)); reflexivity]
    end.
Qed.

End CheckProperties.

(** The timeout height 100: refused at height 101, so refused at 250. *)
Lemma checkTimeout_monotone_witness :
  let ctx := Example.context 101 false 0 in
  let ctx' := Example.context 250 false 0 in
  let tx := Example.fullTx 100 "" [] [] in
  asTxWithTimeoutHeight tx = Some 100 /\
  0 <= BlockHeight ctx <= BlockHeight ctx' /\
  BlockHeight ctx' < 2 ^ 63 /\
  checkTimeout ctx tx <> None /\
  checkTimeout ctx' tx = Some (ErrTxTimeoutHeight 250 100).
Proof.
  intros ctx ctx' tx.
  assert (Hb : 0 <= BlockHeight ctx <= BlockHeight ctx') by (simpl; lia).
  assert (Hb' : BlockHeight ctx' < 2 ^ 63) by (simpl; lia).
  assert (Hrefused : checkTimeout ctx tx <> None) by discriminate.
  split; [reflexivity | ].
  split; [exact Hb | ].
  split; [exact Hb' | ].
  split; [exact Hrefused | ].
  exact (proj1 (checkTimeout_monotone (E := Example.external) ctx ctx' tx 100
                  eq_refl Hb Hb') Hrefused).
Defined.

(** The memo "hello" passes under the limit 256, so "hi" passes under the
    same limit. *)
Lemma checkForValidMemo_monotone_witness :
  let ctx := Example.context 5 false 0 in
  let tx := Example.fullTx 0 "hello" [] [] in
  let tx' := Example.fullTx 0 "hi" [] [] in
  let w := Example.world Example.defaultParams 1000 in
  asTxWithMemo tx = Some "hello" /\
  asTxWithMemo tx' = Some "hi" /\
  Go.is_len (Go.strlen "hello") /\
  checkForValidMemo Example.keeper ctx tx w = (Ok tt, w) /\
  checkForValidMemo Example.keeper ctx tx' w = (Ok tt, w).
Proof.
  intros ctx tx tx' w.
  assert (Hlen : Go.is_len (Go.strlen "hello")) by compute_range.
  assert (Hshorter : Go.strlen "hi" <= Go.strlen "hello") by compute_range.
  assert (Hlimit : MaxMemoCharacters (GetParams Example.keeper (store w))
                   <= MaxMemoCharacters (GetParams Example.keeper (store w)))
    by apply Z.le_refl.
  assert (Hpass : checkForValidMemo Example.keeper ctx tx w = (Ok tt, w)) by reflexivity.
  split; [reflexivity | ].
  split; [reflexivity | ].
  split; [exact Hlen | ].
  split; [exact Hpass | ].
  exact (proj1 (checkForValidMemo_monotone (E := Example.external) Example.keeper
                  ctx ctx tx tx' "hello" "hi" w w eq_refl eq_refl Hlen)
           Hshorter Hlimit Hpass).
Defined.

(** A transaction that fails its validation and has expired, in DeliverTx:
    the chain answers with the validation error and charges nothing. *)
Example standard_chain_validation_first :
  run (ValidateBasicMiddleware
         (TxTimeoutHeightMiddleware
            (ValidateMemoMiddleware Example.keeper
               (ConsumeTxSizeGasMiddleware Example.keeper Example.unreachable))))
    ModeDeliver (Example.context 101 true 10)
    {| ValidateBasic := Some (ErrTx "malformed");
       asTxWithTimeoutHeight := Some 100;
       asTxWithMemo := Some "hello";
       asSigVerifiableTx := None |}
    tt (Example.world Example.defaultParams 1000)
  = (Err (ErrTx "malformed"), Example.world Example.defaultParams 1000).
Proof. vm_compute. reflexivity. Qed.

(** ** More on signature completeness *)

Lemma existsb_Permutation {A : Type} (f : A -> bool) (l l' : list A) :
  Permutation l l' -> existsb f l = existsb f l'.
Proof.
  induction 1 as [ | x l l' _ IH | x y l | l l' l'' _ IH _ IH'']; simpl.
  - reflexivity.
  - rewrite IH. reflexivity.
  - destruct (f x), (f y); reflexivity.
  - rewrite IH. exact IH''.
Qed.

(** X10. The completeness of a multi-signature does not depend on the order
    of its members. *)
Theorem isIncompleteSignature_Permutation (sigs sigs' : list SignatureData) :
  Permutation sigs sigs' ->
  isIncompleteSignature (MultiSignatureData sigs) =
  isIncompleteSignature (MultiSignatureData sigs').
Proof.
  intros Hperm.
  rewrite !isIncompleteSignature_multi.
  unfold Go.len. rewrite (Permutation_length Hperm).
  rewrite (existsb_Permutation isIncompleteSignature sigs sigs' Hperm).
  reflexivity.
Qed.

Lemma isIncompleteSignature_Permutation_witness :
  let a := SingleSignatureData [x01] in
  let b := MultiSignatureData [NilSignatureData] in
  let c := SingleSignatureData [x02; x03] in
  Permutation [a; b; c] [c; a; b] /\
  isIncompleteSignature (MultiSignatureData [a; b; c]) = true /\
  isIncompleteSignature (MultiSignatureData [c; a; b]) = true.
Proof.
  intros a b c.
  assert (Hperm : Permutation [a; b; c] [c; a; b]).
  { apply Permutation_sym. apply (Permutation_cons_app [a; b] [] c).
    apply Permutation_refl. }
  split; [exact Hperm | ].
  split; [reflexivity | ].
  rewrite <- (isIncompleteSignature_Permutation [a; b; c] [c; a; b] Hperm).
  reflexivity.
Defined.

(** X11. Incompleteness spreads upwards through any depth of nesting: signature
    data within which an incomplete value occurs, at whatever depth, is
    incomplete; so complete signature data has only complete values
    within. *)
Theorem isIncompleteSignature_within (inner outer : SignatureData) :
  Within inner outer ->
  isIncompleteSignature inner = true ->
  isIncompleteSignature outer = true.
Proof.
  intros Hwithin Hinner.
  induction Hwithin as [ | sigs s Hin _ IH].
  - exact Hinner.
  - rewrite isIncompleteSignature_multi.
    destruct (Go.len sigs =? 0); [reflexivity | ].
    apply existsb_exists. exists s. split; [exact Hin | exact IH].
Qed.

(** A nil value two levels down. *)
Lemma isIncompleteSignature_within_witness :
  let outer := MultiSignatureData
                 [SingleSignatureData [x01];
                  MultiSignatureData [SingleSignatureData [x02]; NilSignatureData]] in
  Within NilSignatureData outer /\
  isIncompleteSignature NilSignatureData = true /\
  isIncompleteSignature outer = true.
Proof.
  intros outer.
  assert (Hwithin : Within NilSignatureData outer).
  { apply Within_member
      with (s := MultiSignatureData [SingleSignatureData [x02]; NilSignatureData]).
    - right. left. reflexivity.
    - apply Within_member with (s := NilSignatureData).
      + right. left. reflexivity.
      + apply Within_here. }
  split; [exact Hwithin | ].
  split; [reflexivity | ].
  exact (isIncompleteSignature_within NilSignatureData outer Hwithin eq_refl).
Defined.

(** X12. Complete signature data carries signature bytes: it has at least
    one leaf signature and none of its leaf signatures is empty. *)
Theorem complete_signature_leaves (data : SignatureData) :
  isIncompleteSignature data = false ->
  leafSignatures data <> [] /\ Forall (fun sig => sig <> []) (leafSignatures data).
Proof.
  induction data as [ | sig | sigs IHsigs] using SignatureData_members_ind;
    intros Hcomplete.
  - discriminate Hcomplete.
  - change (isIncompleteSignature (SingleSignatureData sig))
      with (Go.len sig =? 0) in Hcomplete.
    assert (Hsig : sig <> []).
    { intros ->. discriminate Hcomplete. }
    simpl. split; [discriminate | ].
    constructor; [exact Hsig | constructor].
  - rewrite isIncompleteSignature_multi in Hcomplete.
    destruct (Go.len sigs =? 0) eqn:Hlen; [discriminate Hcomplete | ].
    assert (Hall : forall s, In s sigs -> isIncompleteSignature s = false).
    { intros s Hin. destruct (isIncompleteSignature s) eqn:Hs; [ | reflexivity].
      assert (Hex : existsb isIncompleteSignature sigs = true)
        by (apply existsb_exists; exists s; split; assumption).
      rewrite Hex in Hcomplete. discriminate Hcomplete. }
    rewrite Forall_forall in IHsigs.
    simpl. split.
    + destruct sigs as [ | s sigs]; [discriminate Hlen | ].
      simpl. intros Hnil. apply app_eq_nil in Hnil. destruct Hnil as [Hnil _].
      apply (proj1 (IHsigs s (or_introl eq_refl) (Hall s (or_introl eq_refl)))).
      exact Hnil.
    + apply Forall_forall. intros leaf Hleaf.
      apply in_flat_map in Hleaf. destruct Hleaf as [s [Hin Hleaf]].
      pose proof (proj2 (IHsigs s Hin (Hall s Hin))) as Hs.
      rewrite Forall_forall in Hs. apply Hs. exact Hleaf.
Qed.

Lemma complete_signature_leaves_witness :
  let data := MultiSignatureData
                [SingleSignatureData [x01];
                 MultiSignatureData [SingleSignatureData [x02; x03]]] in
  isIncompleteSignature data = false /\
  leafSignatures data = [[x01]; [x02; x03]] /\
  Forall (fun sig => sig <> []) (leafSignatures data).
Proof.
  intros data.
  split; [reflexivity | ].
  split; [reflexivity | ].
  exact (proj2 (complete_signature_leaves data eq_refl)).
Defined.

(** ** Characters and bytes of a memo *)

Lemma utf8_rune_at_most_four (r : Z) : (List.length (UTF8.utf8_rune r) <= 4)%nat.
Proof.
  unfold UTF8.utf8_rune, UTF8.rune_error.
  repeat match goal with
         | |- context [if ?c then _ else _] => destruct c
         end; simpl; lia.
Qed.

Lemma utf8_rune_ascii (r : Z) :
  0 <= r < 128 -> UTF8.utf8_rune r = [UTF8.byte_char r].
Proof.
  intros Hr. unfold UTF8.utf8_rune.
  destruct (Z.ltb_spec r 0); [lia | ].
  destruct (Z.ltb_spec r 128); [reflexivity | lia].
Qed.

(** A string of [n] characters has at most [4 * n] bytes. *)
Lemma strlen_le_four_characters (runes : list Z) :
  Go.strlen (UTF8.encode runes) <= 4 * UTF8.characters runes.
Proof.
  unfold UTF8.characters, UTF8.encode, Go.len, Go.strlen.
  rewrite length_string_of_list_ascii.
  induction runes as [ | r runes IHrunes]; simpl List.length; [simpl; lia | ].
  simpl flat_map. rewrite length_app.
  pose proof (utf8_rune_at_most_four r). lia.
Qed.

(** A string of ASCII characters has one byte per character. *)
Lemma strlen_ascii (runes : list Z) :
  Forall (fun r => 0 <= r < 128) runes ->
  Go.strlen (UTF8.encode runes) = UTF8.characters runes.
Proof.
  unfold UTF8.characters, UTF8.encode, Go.len, Go.strlen.
  rewrite length_string_of_list_ascii.
  induction 1 as [ | r runes Hr _ IH]; [reflexivity | ].
  simpl flat_map. rewrite (utf8_rune_ascii r Hr).
  simpl List.length. lia.
Qed.

Section MemoCharacters.

Context {E : External}.

(** X13. What the limit on the bytes of a memo means for its characters.
    A memo with more characters than the limit is refused, one with at most
    a quarter of the limit in characters is accepted, and a memo of ASCII
    characters is accepted exactly when its number of characters is within
    the limit. *)
Theorem validateMemo_character_bounds (ak : AccountKeeper) (next : Handler) (m : Mode)
    (ctx : Context) (tx : Tx) (req : Request m) (w : World) (runes : list Z) :
  asTxWithMemo tx = Some (UTF8.encode runes) ->
  Go.is_len (Go.strlen (UTF8.encode runes)) ->
  let limitM := MaxMemoCharacters (GetParams ak (store w)) in
  let refused :=
    (Err (ErrMemoTooLarge limitM (Go.strlen (UTF8.encode runes))), w) in
  (UTF8.characters runes > limitM ->
   run (ValidateMemoMiddleware ak next) m ctx tx req w = refused)
  /\
  (4 * UTF8.characters runes <= limitM ->
   run (ValidateMemoMiddleware ak next) m ctx tx req w = run next m ctx tx req w)
  /\
  (Forall (fun r => 0 <= r < 128) runes ->
   (UTF8.characters runes <= limitM ->
    run (ValidateMemoMiddleware ak next) m ctx tx req w = run next m ctx tx req w)
   /\
   (run (ValidateMemoMiddleware ak next) m ctx tx req w = refused
    <-> UTF8.characters runes > limitM \/
        (UTF8.characters runes <= limitM /\ run next m ctx tx req w = refused))).
Proof.
  intros Hcap Hlen limitM refused.
  pose proof (checkForValidMemo_eq ak ctx tx (UTF8.encode runes) w Hcap) as Hcheck.
  rewrite (strlen_uint64 _ Hlen), Z.gtb_ltb in Hcheck. fold limitM in Hcheck.
  pose proof (characters_le_strlen runes) as Hlow.
  pose proof (strlen_le_four_characters runes) as Hhigh.
  assert (Hrun : run (ValidateMemoMiddleware ak next) m ctx tx req w =
                 if limitM <? Go.strlen (UTF8.encode runes)
                 then refused else run next m ctx tx req w).
  { rewrite validateMemo_run. unfold bind. rewrite Hcheck.
    destruct (limitM <? Go.strlen (UTF8.encode runes)); reflexivity. }
  rewrite Hrun.
  split.
  { intros Hmany. destruct (Z.ltb_spec limitM (Go.strlen (UTF8.encode runes)));
      [reflexivity | lia]. }
  split.
  { intros Hfew. destruct (Z.ltb_spec limitM (Go.strlen (UTF8.encode runes)));
      [lia | reflexivity]. }
  intros Hascii.
  rewrite (strlen_ascii runes Hascii) in *.
  destruct (Z.ltb_spec limitM (UTF8.characters runes)) as [Hlt | Hge].
  - split; [intros; lia | ].
    split; [intros _; left; lia | reflexivity].
  - split; [reflexivity | ].
    split.
    + intros Hnext. right. split; [exact Hge | exact Hnext].
    + intros [Hgt | [_ Hnext]]; [lia | exact Hnext].
Qed.

(** X14. The timeout stage and the memo stage can be swapped without
    changing whether a call is refused or what reaches the next handler:
    in either order the call is refused, with store and gas meter
    untouched, exactly when one of the two checks fails, and otherwise goes
    on to the next handler; only the error reported when both checks fail
    depends on the order. *)
Theorem timeout_memo_stages_commute (ak : AccountKeeper) (next : Handler) (m : Mode)
    (ctx : Context) (tx : Tx) (req : Request m) (w : World) :
  let first := run (TxTimeoutHeightMiddleware (ValidateMemoMiddleware ak next)) m ctx tx req w in
  let second := run (ValidateMemoMiddleware ak (TxTimeoutHeightMiddleware next)) m ctx tx req w in
  (checkTimeout ctx tx = None /\ fst (checkForValidMemo ak ctx tx w) = Ok tt /\
   first = run next m ctx tx req w /\ second = run next m ctx tx req w)
  \/
  ((checkTimeout ctx tx <> None \/ fst (checkForValidMemo ak ctx tx w) <> Ok tt) /\
   exists e e', first = (Err e, w) /\ second = (Err e', w) /\
     (checkTimeout ctx tx = None \/ fst (checkForValidMemo ak ctx tx w) = Ok tt
      -> e = e')).
Proof.
  intros first second. subst first second.
  rewrite txTimeoutHeight_run, !validateMemo_run.
  unfold bind.
  destruct (checkForValidMemo_pure ak ctx tx w) as [Hworld Hpanic].
  destruct (checkForValidMemo ak ctx tx w) as [[[] | e | p] w0];
    simpl in Hworld; subst w0; simpl fst in *; rewrite ?txTimeoutHeight_run.
  - destruct (checkTimeout ctx tx) as [e | ].
    + right. split; [left; discriminate | ].
      exists e, e. repeat split.
    + left. repeat split.
  - right. split; [right; discriminate | ].
    destruct (checkTimeout ctx tx) as [e' | ].
    + exists e', e. repeat split.
      intros [Habs | Habs]; discriminate Habs.
    + exists e, e. repeat split.
  - exfalso. apply (Hpanic p). reflexivity.
Qed.

End MemoCharacters.

(** Six ASCII characters against the limit 256. *)
Lemma validateMemo_character_bounds_witness :
  let runes := [104; 101; 108; 108; 111; 33] in
  let tx := Example.fullTx 0 (UTF8.encode runes) [] [] in
  let w := Example.world Example.defaultParams 1000 in
  asTxWithMemo tx = Some (UTF8.encode runes) /\
  Go.is_len (Go.strlen (UTF8.encode runes)) /\
  4 * UTF8.characters runes <= 256 /\
  run (ValidateMemoMiddleware Example.keeper Example.terminal) ModeCheck
    (Example.context 5 false 0) tx tt w
  = (Ok 0, w).
Proof.
  intros runes tx w.
  assert (Hlen : Go.is_len (Go.strlen (UTF8.encode runes))) by compute_range.
  assert (Hfew : 4 * UTF8.characters runes <= 256) by compute_range.
  split; [reflexivity | ].
  split; [exact Hlen | ].
  split; [exact Hfew | ].
  exact (proj1 (proj2
           (validateMemo_character_bounds (E := Example.external) Example.keeper
              Example.terminal ModeCheck (Example.context 5 false 0) tx tt w runes
              eq_refl Hlen)) Hfew).
Defined.
